(** * Kidney Health Analyser: the wizard and its hand-off to the classifier

    A shallow embedding of [app.py], a Streamlit script.  Streamlit runs the
    whole script from top to bottom once per user interaction; what survives
    from one run to the next is [st.session_state].  A run is modelled as a
    computation in a small state-and-exception monad over

    - the session state (the keys [page] and [inputs] of [st.session_state]),
    - a trace of what the run did towards the outside: elements put on the
      screen, the attempt to load the model artifact, calls of the model.

    [st.rerun()] and [st.stop()] end a run by raising control exceptions that
    [except Exception] does not catch; they are the signals [Rerun] and [Stop]
    below.  Page configuration, the style sheet and the column layout only
    change how elements look and are left out. *)

From Stdlib Require Import ZArith Floats.
From stdpp Require Import gmap strings list fin_maps.

Local Open Scope string_scope.
Local Open Scope list_scope.
Local Open Scope Z_scope.

(* 0.01 is read as the nearest binary64 value, as Python reads it. *)
#[local] Set Warnings "-inexact-float".

(** ** Python values and exceptions *)

(** The values that occur: [int] and [float] measurements, and [str] (what the
    classifier returns for a row). *)
Inductive value :=
| VInt (n : Z)
| VFloat (x : float)
| VStr (s : string).

(** [v == "..."] for a string literal on the right: a number is never equal
    to a string. *)
Definition py_eq_str (v : value) (lit : string) : bool :=
  match v with
  | VStr s => String.eqb s lit
  | _ => false
  end.

Inductive exn :=
| KeyError (key : string)              (* d[k], or a column label, that is missing *)
| AttributeError (name : string)       (* st.session_state.<name> that was never set *)
| IndexError                           (* a[0] on an empty array *)
| StreamlitAPIException (label : string) (* a control given a value of the wrong type *)
| ForeignError (msg : string).         (* raised inside joblib or the model *)

(** ** The classifier *)

(** A single-row table: the columns in order, each with its cells. *)
Definition DataFrame := list (string * list value).

Definition columns (df : DataFrame) : list string := map fst df.

(** The unpickled model: [predict] on a table gives an array of outputs or
    raises; [feature_names_in_] is the attribute scikit-learn sets when the
    model was fitted on named columns ([hasattr] is [Some]). *)
Record model := {
  predict : DataFrame -> exn + list value;
  feature_names_in_ : option (list string)
}.

(** ** Session state, screen and trace *)

Record session_state := {
  page : option Z;
  inputs : option (gmap string value)
}.

Inductive element :=
| Header (subheader : string)              (* the header-container block *)
| Block (heading : string)                 (* a block of static text *)
| Slider (label : string) (lo hi : value)
| NumberInput (label : string) (lo hi : value)
| Button (label key : string)
| DivOpen (class : string)
| DivClose
| ResultTitle (icon text : string)         (* div class result-title *)
| ResultContent (text : string)            (* div class result-content *)
| ErrorBox (prefix : string) (e : exn).    (* st.error(f"<prefix>{str(e)}") *)

Inductive event :=
| Load (path : string)                     (* joblib.load(path) *)
| Render (el : element)
| Predict (df : DataFrame).                (* model.predict(df) *)

Record world := {
  session : session_state;
  trace : list event
}.

(** What the browser reports to a run: for each control (by label) the entry
    the user made in it, if any, and for each button (by key) whether it was
    pressed. *)
Record frontend := {
  int_entry : string -> option Z;
  float_entry : string -> option float;
  clicked : string -> bool
}.

(** ** The run monad *)

Inductive signal :=
| Raise (e : exn)
| Rerun
| Stop.

Inductive result (A : Type) :=
| Ok (a : A)
| Sig (s : signal).
Arguments Ok {A} a.
Arguments Sig {A} s.

Definition M (A : Type) : Type := world -> result A * world.

Definition ret {A} (a : A) : M A := fun w => (Ok a, w).

Definition bind {A B} (c : M A) (k : A -> M B) : M B :=
  fun w =>
    match c w with
    | (Ok a, w') => k a w'
    | (Sig s, w') => (Sig s, w')
    end.

Declare Scope run_scope.
Delimit Scope run_scope with run.
Bind Scope run_scope with M.
Notation "x ← c1 ; c2" := (bind c1 (fun x => c2))
  (at level 20, c1 at level 100, c2 at level 200, only parsing) : run_scope.
Notation "c1 ;; c2" := (bind c1 (fun _ => c2))
  (at level 100, c2 at level 200, only parsing, right associativity) : run_scope.
Local Open Scope run_scope.

Definition raise {A} (e : exn) : M A := fun w => (Sig (Raise e), w).

(** [try: body except Exception as e: handler e].  [Rerun] and [Stop] pass
    through. *)
Definition try_except {A} (body : M A) (handler : exn -> M A) : M A :=
  fun w =>
    match body w with
    | (Sig (Raise e), w') => handler e w'
    | r => r
    end.

Definition emit (ev : event) : M unit :=
  fun w => (Ok tt, {| session := session w; trace := trace w ++ [ev] |}).

Definition lift {A} (r : exn + A) : M A :=
  match r with
  | inl e => raise e
  | inr a => ret a
  end.

(** *** Streamlit primitives *)

Definition st_markdown (el : element) : M unit := emit (Render el).

Definition st_error (prefix : string) (e : exn) : M unit :=
  emit (Render (ErrorBox prefix e)).

Definition st_stop {A} : M A := fun w => (Sig Stop, w).

Definition st_rerun {A} : M A := fun w => (Sig Rerun, w).

Definition st_button (ui : frontend) (label key : string) : M bool :=
  emit (Render (Button label key)) ;; ret (clicked ui key).

(** *** [st.session_state] *)

Definition get_page : M Z :=
  fun w =>
    match page (session w) with
    | Some p => (Ok p, w)
    | None => (Sig (Raise (AttributeError "page")), w)
    end.

Definition set_page (p : Z) : M unit :=
  fun w => (Ok tt, {| session := {| page := Some p; inputs := inputs (session w) |};
                      trace := trace w |}).

(** [st.session_state.inputs[k]] *)
Definition get_input (k : string) : M value :=
  fun w =>
    match inputs (session w) with
    | None => (Sig (Raise (AttributeError "inputs")), w)
    | Some d =>
        match d !! k with
        | Some v => (Ok v, w)
        | None => (Sig (Raise (KeyError k)), w)
        end
    end.

(** [st.session_state.inputs[k] = v] *)
Definition set_input (k : string) (v : value) : M unit :=
  fun w =>
    match inputs (session w) with
    | None => (Sig (Raise (AttributeError "inputs")), w)
    | Some d =>
        (Ok tt, {| session := {| page := page (session w); inputs := Some (<[k := v]> d) |};
                   trace := trace w |})
    end.

(** ** The input controls *)

(** Modelled from the spec: [st.slider] and [st.number_input] are the hosting
    framework's, not code of this repository.  A control shows the value it
    is given and returns it unless the user made an entry; an entry outside
    [lo, hi] is clamped to the nearest bound by the control itself (spec 4.1).
    An entry that is not at least [lo] gives [lo], one that is not at most
    [hi] gives [hi]. *)
Definition clamp_int (lo hi e : Z) : Z :=
  if lo <=? e then (if e <=? hi then e else hi) else lo.

(** Modelled from the spec: the same clamping for a control with [float]
    bounds, with the comparison of binary64 numbers. *)
Definition clamp_float (lo hi e : float) : float :=
  if PrimFloat.leb lo e then (if PrimFloat.leb e hi then e else hi) else lo.

(** Modelled from the spec: what a control with [int] bounds returns, shown
    [cur], for the entry the browser reports. *)
Definition int_control (lo hi cur : Z) (entry : option Z) : Z :=
  match entry with
  | Some e => clamp_int lo hi e
  | None => cur
  end.

(** Modelled from the spec: what a control with [float] bounds returns. *)
Definition float_control (lo hi cur : float) (entry : option float) : float :=
  match entry with
  | Some e => clamp_float lo hi e
  | None => cur
  end.

(** Modelled from the spec: the value a control returns.  The numeric
    arguments of one control are all [int] or all [float]; a mix is refused
    with an exception. *)
Definition control_value (ui : frontend) (label : string) (lo hi cur : value) : exn + value :=
  match lo, hi, cur with
  | VInt l, VInt h, VInt c => inr (VInt (int_control l h c (int_entry ui label)))
  | VFloat l, VFloat h, VFloat c => inr (VFloat (float_control l h c (float_entry ui label)))
  | _, _, _ => inl (StreamlitAPIException label)
  end.

(** Modelled from the spec: [st.slider(label, lo, hi, cur)] draws the slider
    and returns its value. *)
Definition st_slider (ui : frontend) (label : string) (lo hi cur : value) : M value :=
  v ← lift (control_value ui label lo hi cur);
  emit (Render (Slider label lo hi)) ;;
  ret v.

(** Modelled from the spec: [st.number_input(label, lo, hi, cur)] draws the
    number field and returns its value. *)
Definition st_number_input (ui : frontend) (label : string) (lo hi cur : value) : M value :=
  v ← lift (control_value ui label lo hi cur);
  emit (Render (NumberInput label lo hi)) ;;
  ret v.

(** One statement of the input pages,
    [st.session_state.inputs[k] = widget(label, lo, hi, st.session_state.inputs[k], ...)]:
    the right-hand side is evaluated first, then the item is stored. *)
Definition input_statement (widget : string -> value -> value -> value -> M value)
    (k label : string) (lo hi : value) : M unit :=
  cur ← get_input k;
  v ← widget label lo hi cur;
  set_input k v.

(** ** Section 4 of the script: the session state is set up once *)

Definition default_inputs : gmap string value :=
  list_to_map
    [ ("age", VInt 40);
      ("glucose", VInt 100);
      ("serum_creatinine", VFloat 1.00);
      ("potassium", VFloat 4.00);
      ("wbc", VInt 7000);
      ("urine_output", VInt 1500);
      ("blood_urea", VFloat 40.00);
      ("upcr", VFloat 0.50);
      ("egfr", VFloat 90.00);
      ("pth", VFloat 40.00);
      ("il6", VFloat 5.00) ].

(** [if 'page' not in st.session_state: ...] *)
Definition init_session : M unit :=
  fun w =>
    match page (session w) with
    | None =>
        (Ok tt, {| session := {| page := Some 1; inputs := Some default_inputs |};
                   trace := trace w |})
    | Some _ => (Ok tt, w)
    end.

(** ** Section 5: navigation *)

Definition go_to_page (page_num : Z) : M unit :=
  set_page page_num ;;
  st_rerun.

(** ** Section 6: the pages *)

Definition welcome_page (ui : frontend) : M unit :=
  st_markdown (Header "Welcome to your kidney health analysis portal") ;;
  st_markdown (Block "Protect Your Kidney Health") ;;
  b ← st_button ui "Start Assessment" "start_assessment";
  (if b then go_to_page 2 else ret tt) ;;
  st_markdown (Block "About This Assessment").

Definition basic_metrics_page (ui : frontend) : M unit :=
  st_markdown (Header "Step 1: Basic Health Metrics") ;;
  input_statement (st_slider ui) "age" "Age of the patient (years)" (VInt 5) (VInt 100) ;;
  input_statement (st_number_input ui) "glucose" "Random blood glucose level (mg/dl)" (VInt 50) (VInt 600) ;;
  input_statement (st_number_input ui) "serum_creatinine" "Serum creatinine (mg/dl)" (VFloat 0.50) (VFloat 20.00) ;;
  input_statement (st_number_input ui) "potassium" "Potassium level (mEq/L)" (VFloat 2.00) (VFloat 8.00) ;;
  input_statement (st_number_input ui) "wbc" "White blood cell count (cells/cumm)" (VInt 1000) (VInt 20000) ;;
  b ← st_button ui "🏠 Return to Home" "home_from_basic";
  (if b then go_to_page 1 else ret tt) ;;
  b ← st_button ui "Next →" "next_to_kidney";
  (if b then go_to_page 3 else ret tt).

Definition kidney_metrics_page (ui : frontend) : M unit :=
  st_markdown (Header "Step 2: Kidney Function Metrics") ;;
  input_statement (st_slider ui) "urine_output" "Urine output (ml/day)" (VInt 300) (VInt 4000) ;;
  input_statement (st_number_input ui) "blood_urea" "Blood urea (mg/dl)" (VFloat 5.00) (VFloat 250.00) ;;
  input_statement (st_number_input ui) "upcr" "Urine protein-to-creatinine ratio" (VFloat 0.01) (VFloat 10.00) ;;
  input_statement (st_number_input ui) "egfr" "Estimated Glomerular Filtration Rate (eGFR)" (VFloat 0.01) (VFloat 200.00) ;;
  input_statement (st_number_input ui) "pth" "Parathyroid hormone (PTH) level" (VFloat 10.00) (VFloat 100.00) ;;
  input_statement (st_number_input ui) "il6" "Interleukin-6 (IL-6) level (pg/ml)" (VFloat 0.01) (VFloat 20.00) ;;
  st_markdown (DivOpen "analyze-button") ;;
  b ← st_button ui "Analyze Kidney Health" "analyze";
  (if b then go_to_page 4 else ret tt) ;;
  st_markdown DivClose ;;
  b ← st_button ui "← Previous" "prev_to_basic";
  (if b then go_to_page 2 else ret tt) ;;
  b ← st_button ui "🏠 Return to Home" "home_from_kidney";
  (if b then go_to_page 1 else ret tt).

(** The table handed to the classifier, [pd.DataFrame({...})]: the cells are
    read in the order of the dictionary display. *)
Definition build_input_data : M DataFrame :=
  age ← get_input "age";
  glucose ← get_input "glucose";
  blood_urea ← get_input "blood_urea";
  serum_creatinine ← get_input "serum_creatinine";
  potassium ← get_input "potassium";
  wbc ← get_input "wbc";
  egfr ← get_input "egfr";
  upcr ← get_input "upcr";
  urine_output ← get_input "urine_output";
  pth ← get_input "pth";
  il6 ← get_input "il6";
  ret [ ("Age of the patient", [age]);
        ("Random blood glucose level (mg/dl)", [glucose]);
        ("Blood urea (mg/dl)", [blood_urea]);
        ("Serum creatinine (mg/dl)", [serum_creatinine]);
        ("Potassium level (mEq/L)", [potassium]);
        ("White blood cell count (cells/cumm)", [wbc]);
        ("Estimated Glomerular Filtration Rate (eGFR)", [egfr]);
        ("Urine protein-to-creatinine ratio", [upcr]);
        ("Urine output (ml/day)", [urine_output]);
        ("Parathyroid hormone (PTH) level", [pth]);
        ("Interleukin-6 (IL-6) level", [il6]) ].

Fixpoint df_column (df : DataFrame) (name : string) : option (list value) :=
  match df with
  | [] => None
  | (n, cells) :: rest => if String.eqb n name then Some cells else df_column rest name
  end.

(** [df[names]]: the named columns, in the order of [names]; [KeyError] when
    a name is no column of [df]. *)
Fixpoint df_select (df : DataFrame) (names : list string) : exn + DataFrame :=
  match names with
  | [] => inr []
  | n :: ns =>
      match df_column df n with
      | None => inl (KeyError n)
      | Some cells =>
          match df_select df ns with
          | inl e => inl e
          | inr rest => inr ((n, cells) :: rest)
          end
      end
  end.

(** [if hasattr(model, 'feature_names_in_'): input_data = input_data[model.feature_names_in_]] *)
Definition reorder_columns (m : model) (input_data : DataFrame) : exn + DataFrame :=
  match feature_names_in_ m with
  | Some names => df_select input_data names
  | None => inr input_data
  end.

(** [model.predict(df)] *)
Definition model_predict (m : model) (df : DataFrame) : M (list value) :=
  emit (Predict df) ;;
  lift (predict m df).

(** [a[0]] *)
Definition first_item (a : list value) : M value :=
  match a with
  | v :: _ => ret v
  | [] => raise IndexError
  end.

(** The inference boundary up to the raw output: build the table, put the
    columns in the order the model names (if it names one), call the model,
    take the output for the single row. *)
Definition raw_prediction (m : model) : M value :=
  input_data ← build_input_data;
  input_data ← lift (reorder_columns m input_data);
  a ← model_predict m input_data;
  first_item a.

(** [if prediction == "No_Disease": ... else: ...] *)
Definition show_prediction (prediction : value) : M unit :=
  if py_eq_str prediction "No_Disease" then
    st_markdown (ResultTitle "💚" "No Kidney Disease Detected") ;;
    st_markdown (ResultContent "Based on your input parameters, the model indicates no signs of kidney disease. Continue maintaining good kidney health with regular checkups.")
  else
    st_markdown (ResultTitle "⚠️" "Kidney Disease Detected") ;;
    st_markdown (ResultContent "Based on your input parameters, the model indicates potential kidney disease. Please consult with a healthcare professional for further evaluation.").

Definition results_page (m : model) (ui : frontend) : M unit :=
  st_markdown (Header "Your Kidney Health Analysis Results") ;;
  try_except
    (prediction ← raw_prediction m;
     show_prediction prediction)
    (fun e => st_error "Prediction error: " e) ;;
  st_markdown (DivOpen "button-container") ;;
  b ← st_button ui "🏠 Return to Home" "home_from_results";
  (if b then go_to_page 1 else ret tt) ;;
  st_markdown DivClose.

(** ** Section 7: the router *)

Definition router (m : model) (ui : frontend) : M unit :=
  p ← get_page;
  if p =? 1 then welcome_page ui
  else if p =? 2 then basic_metrics_page ui
  else if p =? 3 then kidney_metrics_page ui
  else if p =? 4 then results_page m ui
  else ret tt.

(** ** The script *)

(** [joblib.load(path)]; [artifact] is what unpickling the file gives. *)
Definition joblib_load (artifact : exn + model) (path : string) : M model :=
  emit (Load path) ;;
  lift artifact.

Definition script (artifact : exn + model) (ui : frontend) : M unit :=
  m ← try_except
        (joblib_load artifact "best_gb_model_tuned.pkl")
        (fun e => st_error "Error loading model: " e ;; st_stop);
  init_session ;;
  router m ui.

(** One run of the script on a session: the session it leaves, what it did,
    and how it ended. *)
Definition run_script (artifact : exn + model) (ui : frontend) (s : session_state)
  : result unit * world :=
  script artifact ui {| session := s; trace := [] |}.

Definition session_after (artifact : exn + model) (ui : frontend) (s : session_state)
  : session_state :=
  session (snd (run_script artifact ui s)).

Definition trace_of (artifact : exn + model) (ui : frontend) (s : session_state)
  : list event :=
  trace (snd (run_script artifact ui s)).

(** A new browser session starts with an empty [st.session_state]. *)
Definition new_session : session_state := {| page := None; inputs := None |}.

(** The sessions a user can bring about: every interaction, and every
    [st.rerun()], is one more run of the script on the session as the previous
    run left it. *)
Inductive reachable (artifact : exn + model) : session_state -> Prop :=
| reach_new : reachable artifact new_session
| reach_run ui s :
    reachable artifact s -> reachable artifact (session_after artifact ui s).

(** ** The declared ranges and the session invariant *)

(** The range of each field: the bounds its control is created with. *)
Definition field_table : list (string * (value * value)) :=
  [ ("age", (VInt 5, VInt 100));
    ("glucose", (VInt 50, VInt 600));
    ("serum_creatinine", (VFloat 0.50, VFloat 20.00));
    ("potassium", (VFloat 2.00, VFloat 8.00));
    ("wbc", (VInt 1000, VInt 20000));
    ("urine_output", (VInt 300, VInt 4000));
    ("blood_urea", (VFloat 5.00, VFloat 250.00));
    ("upcr", (VFloat 0.01, VFloat 10.00));
    ("egfr", (VFloat 0.01, VFloat 200.00));
    ("pth", (VFloat 10.00, VFloat 100.00));
    ("il6", (VFloat 0.01, VFloat 20.00)) ].

(** [lo <= v <= hi], for a value of the type of the bounds. *)
Definition within (lo hi v : value) : bool :=
  match lo, hi, v with
  | VInt l, VInt h, VInt n => (l <=? n) && (n <=? h)
  | VFloat l, VFloat h, VFloat x => PrimFloat.leb l x && PrimFloat.leb x h
  | _, _, _ => false
  end.

(** The field is defined and its value lies in the range. *)
Definition field_okb (d : gmap string value) (kr : string * (value * value)) : bool :=
  match d !! kr.1 with
  | Some v => within kr.2.1 kr.2.2 v
  | None => false
  end.

Definition record_ok (d : gmap string value) : Prop :=
  Forall (fun kr => field_okb d kr = true) field_table.

Definition page_ok (p : Z) : Prop := 1 <= p <= 4.

(** A session that has been set up: its page is one of the four and every
    field of its record is in range. *)
Definition active_ok (s : session_state) : Prop :=
  match page s, inputs s with
  | Some p, Some d => page_ok p ∧ record_ok d
  | _, _ => False
  end.

(** A session is either untouched or set up. *)
Definition session_ok (s : session_state) : Prop :=
  s = new_session ∨ active_ok s.

(** The browser made no entry in any control. *)
Definition no_entries (ui : frontend) : Prop :=
  (∀ l, int_entry ui l = None) ∧ (∀ l, float_entry ui l = None).

(** ** The labels *)

Inductive label := Positive | Negative.

(** The label a result title shows. *)
Definition label_of_event (ev : event) : option label :=
  match ev with
  | Render (ResultTitle _ text) =>
      if String.eqb text "No Kidney Disease Detected" then Some Negative
      else if String.eqb text "Kidney Disease Detected" then Some Positive
      else None
  | _ => None
  end.

Definition labels_shown (tr : list event) : list label :=
  omap label_of_event tr.

Definition rendered (tr : list event) : list element :=
  omap (fun ev => match ev with Render el => Some el | _ => None end) tr.

Definition predict_calls (tr : list event) : list DataFrame :=
  omap (fun ev => match ev with Predict df => Some df | _ => None end) tr.

Definition load_attempts (tr : list event) : list string :=
  omap (fun ev => match ev with Load path => Some path | _ => None end) tr.

(** ** The wizard steps *)

Inductive WizardStep := Welcome | BasicMetrics | KidneyMetrics | Results.

(** The step a page number stands for in the router. *)
Definition step_of_page (p : Z) : option WizardStep :=
  if p =? 1 then Some Welcome
  else if p =? 2 then Some BasicMetrics
  else if p =? 3 then Some KidneyMetrics
  else if p =? 4 then Some Results
  else None.

Definition current_step (s : session_state) : option WizardStep :=
  page s ≫= step_of_page.

(** The declared transitions: the linear forward path, home from every later
    step, and back from KidneyMetrics. *)
Inductive transition : WizardStep -> WizardStep -> Prop :=
| t_start : transition Welcome BasicMetrics
| t_next : transition BasicMetrics KidneyMetrics
| t_analyze : transition KidneyMetrics Results
| t_home_from_basic : transition BasicMetrics Welcome
| t_home_from_kidney : transition KidneyMetrics Welcome
| t_previous : transition KidneyMetrics BasicMetrics
| t_home_from_results : transition Results Welcome.

(** The page number the script uses for a step. *)
Definition page_of_step (st : WizardStep) : Z :=
  match st with
  | Welcome => 1
  | BasicMetrics => 2
  | KidneyMetrics => 3
  | Results => 4
  end.

(** The key of the button that takes a transition. *)
Definition transition_button (a b : WizardStep) : string :=
  match a, b with
  | Welcome, _ => "start_assessment"
  | BasicMetrics, Welcome => "home_from_basic"
  | BasicMetrics, _ => "next_to_kidney"
  | KidneyMetrics, Welcome => "home_from_kidney"
  | KidneyMetrics, BasicMetrics => "prev_to_basic"
  | KidneyMetrics, _ => "analyze"
  | Results, _ => "home_from_results"
  end.

(** The session as [init_session] leaves it. *)
Definition session_init (s : session_state) : session_state :=
  match page s with
  | None => {| page := Some 1; inputs := Some default_inputs |}
  | Some _ => s
  end.

(** The page function the router calls for a step. *)
Definition page_function (m : model) (ui : frontend) (st : WizardStep) : M unit :=
  match st with
  | Welcome => welcome_page ui
  | BasicMetrics => basic_metrics_page ui
  | KidneyMetrics => kidney_metrics_page ui
  | Results => results_page m ui
  end.

(** The session is on page [p]. *)
Definition at_page (p : Z) (s : session_state) : Prop := page s = Some p.

(** A declared transition, on page numbers. *)
Definition page_transition (p q : Z) : Prop :=
  ∃ a b, step_of_page p = Some a ∧ step_of_page q = Some b ∧ transition a b.

(** The session is on page [p] still, or one declared transition away. *)
Definition near_page (p : Z) (s : session_state) : Prop :=
  ∃ q, page s = Some q ∧ (q = p ∨ page_transition p q).

(** The field holds an [int] between the bounds. *)
Definition int_between (lo hi : Z) (v : option value) : Prop :=
  ∃ n, v = Some (VInt n) ∧ lo <= n <= hi.

(** The field holds a [float] between the bounds. *)
Definition float_between (lo hi : float) (v : option value) : Prop :=
  ∃ x, v = Some (VFloat x) ∧ PrimFloat.leb lo x = true ∧ PrimFloat.leb x hi = true.

(** The eleven fields of the record with their declared ranges. *)
Definition in_declared_ranges (d : gmap string value) : Prop :=
  int_between 5 100 (d !! "age") ∧
  int_between 50 600 (d !! "glucose") ∧
  float_between 0.50 20.00 (d !! "serum_creatinine") ∧
  float_between 2.00 8.00 (d !! "potassium") ∧
  int_between 1000 20000 (d !! "wbc") ∧
  int_between 300 4000 (d !! "urine_output") ∧
  float_between 5.00 250.00 (d !! "blood_urea") ∧
  float_between 0.01 10.00 (d !! "upcr") ∧
  float_between 0.01 200.00 (d !! "egfr") ∧
  float_between 10.00 100.00 (d !! "pth") ∧
  float_between 0.01 20.00 (d !! "il6").

(** A classifier for the examples: it calls every row healthy and names no
    feature order. *)
Definition sample_model : model :=
  {| predict := fun _ => inr [VStr "No_Disease"]; feature_names_in_ := None |}.

(** The browser reports an entry in one integer control. *)
Definition enter_int (lbl : string) (n : Z) : frontend :=
  {| int_entry := fun l => if String.eqb l lbl then Some n else None;
     float_entry := fun _ => None;
     clicked := fun _ => false |}.

(** The record of the session is [x]. *)
Definition record_is (x : option (gmap string value)) (s : session_state) : Prop :=
  inputs s = x.

(** ** The inference boundary seen from outside *)

(** The world at the start of a run on session [s]. *)
Definition start (s : session_state) : world := {| session := s; trace := [] |}.

(** What the inference boundary yields for a session: the raw output of the
    model for the record, or the exception raised on the way. *)
Definition raw_output (m : model) (s : session_state) : result value :=
  fst (raw_prediction m (start s)).

(** The calls of the model the inference boundary makes for a session. *)
Definition model_calls (m : model) (s : session_state) : list DataFrame :=
  predict_calls (trace (snd (raw_prediction m (start s)))).

(** The columns of the table as [build_input_data] makes it. *)
Definition construction_order : list string :=
  [ "Age of the patient";
    "Random blood glucose level (mg/dl)";
    "Blood urea (mg/dl)";
    "Serum creatinine (mg/dl)";
    "Potassium level (mEq/L)";
    "White blood cell count (cells/cumm)";
    "Estimated Glomerular Filtration Rate (eGFR)";
    "Urine protein-to-creatinine ratio";
    "Urine output (ml/day)";
    "Parathyroid hormone (PTH) level";
    "Interleukin-6 (IL-6) level" ].

(** The fixed mapping from the fields of the record to the columns of the
    table, in the order of construction. *)
Definition column_mapping : list (string * string) :=
  [ ("age", "Age of the patient");
    ("glucose", "Random blood glucose level (mg/dl)");
    ("blood_urea", "Blood urea (mg/dl)");
    ("serum_creatinine", "Serum creatinine (mg/dl)");
    ("potassium", "Potassium level (mEq/L)");
    ("wbc", "White blood cell count (cells/cumm)");
    ("egfr", "Estimated Glomerular Filtration Rate (eGFR)");
    ("upcr", "Urine protein-to-creatinine ratio");
    ("urine_output", "Urine output (ml/day)");
    ("pth", "Parathyroid hormone (PTH) level");
    ("il6", "Interleukin-6 (IL-6) level") ].

(** The table holds the record, column by column: for each row of
    [column_mapping] a column of that name whose only cell is the field's
    value. *)
Definition column_mapped (d : gmap string value) (t : DataFrame) : Prop :=
  Forall2 (fun (kc : string * string) (col : string * list value) =>
             col.1 = kc.2 ∧ ∃ v, d !! kc.1 = Some v ∧ col.2 = [v])
          column_mapping t.

(** The outcome of one call [model.predict(df)[0]]. *)
Definition first_output (r : exn + list value) : result value :=
  match r with
  | inl e => Sig (Raise e)
  | inr [] => Sig (Raise IndexError)
  | inr (v :: _) => Ok v
  end.

(** What the results page draws for the outcome of the inference boundary. *)
Definition outcome_block (r : result value) : list element :=
  match r with
  | Ok v =>
      if py_eq_str v "No_Disease" then
        [ ResultTitle "💚" "No Kidney Disease Detected";
          ResultContent "Based on your input parameters, the model indicates no signs of kidney disease. Continue maintaining good kidney health with regular checkups." ]
      else
        [ ResultTitle "⚠️" "Kidney Disease Detected";
          ResultContent "Based on your input parameters, the model indicates potential kidney disease. Please consult with a healthcare professional for further evaluation." ]
  | Sig (Raise e) => [ ErrorBox "Prediction error: " e ]
  | Sig _ => []
  end.

(** [trace_local c]: what [c] does depends on the session only, and what it
    adds to the trace does not depend on the trace so far. *)
Definition trace_local {A} (c : M A) : Prop :=
  ∀ w, c w = (fst (c (start (session w))),
              {| session := session (snd (c (start (session w))));
                 trace := trace w ++ trace (snd (c (start (session w)))) |}).

(** A session with the default record, on page [p]. *)
Definition default_session (p : Z) : session_state :=
  {| page := Some p; inputs := Some default_inputs |}.

(** A classifier whose [predict] always raises. *)
Definition failing_model : model :=
  {| predict := fun _ => inl (ForeignError "X has 11 features, but the classifier is expecting 12");
     feature_names_in_ := None |}.

(** ** The input statements of the pages, as tables *)

Inductive control_kind := KSlider | KNumberInput.

Record field_control := {
  fc_kind : control_kind;
  fc_key : string;
  fc_label : string;
  fc_lo : value;
  fc_hi : value
}.

Definition widget_of (ui : frontend) (kind : control_kind)
  : string -> value -> value -> value -> M value :=
  match kind with
  | KSlider => st_slider ui
  | KNumberInput => st_number_input ui
  end.

(** The input statements of a list of controls, one after the other, then
    [rest]. *)
Definition collect (ui : frontend) (l : list field_control) (rest : M unit) : M unit :=
  foldr (fun fc k =>
           bind (input_statement (widget_of ui (fc_kind fc))
                   (fc_key fc) (fc_label fc) (fc_lo fc) (fc_hi fc))
                (fun _ => k))
        rest l.

(** The controls of page 2, in the order of the page. *)
Definition basic_controls : list field_control :=
  [ Build_field_control KSlider "age" "Age of the patient (years)" (VInt 5) (VInt 100);
    Build_field_control KNumberInput "glucose" "Random blood glucose level (mg/dl)"
      (VInt 50) (VInt 600);
    Build_field_control KNumberInput "serum_creatinine" "Serum creatinine (mg/dl)"
      (VFloat 0.50) (VFloat 20.00);
    Build_field_control KNumberInput "potassium" "Potassium level (mEq/L)"
      (VFloat 2.00) (VFloat 8.00);
    Build_field_control KNumberInput "wbc" "White blood cell count (cells/cumm)"
      (VInt 1000) (VInt 20000) ].

(** The controls of page 3, in the order of the page. *)
Definition kidney_controls : list field_control :=
  [ Build_field_control KSlider "urine_output" "Urine output (ml/day)" (VInt 300) (VInt 4000);
    Build_field_control KNumberInput "blood_urea" "Blood urea (mg/dl)"
      (VFloat 5.00) (VFloat 250.00);
    Build_field_control KNumberInput "upcr" "Urine protein-to-creatinine ratio"
      (VFloat 0.01) (VFloat 10.00);
    Build_field_control KNumberInput "egfr" "Estimated Glomerular Filtration Rate (eGFR)"
      (VFloat 0.01) (VFloat 200.00);
    Build_field_control KNumberInput "pth" "Parathyroid hormone (PTH) level"
      (VFloat 10.00) (VFloat 100.00);
    Build_field_control KNumberInput "il6" "Interleukin-6 (IL-6) level (pg/ml)"
      (VFloat 0.01) (VFloat 20.00) ].

(** The table built from the default record. *)
Definition default_table : DataFrame :=
  [ ("Age of the patient", [VInt 40]);
    ("Random blood glucose level (mg/dl)", [VInt 100]);
    ("Blood urea (mg/dl)", [VFloat 40.00]);
    ("Serum creatinine (mg/dl)", [VFloat 1.00]);
    ("Potassium level (mEq/L)", [VFloat 4.00]);
    ("White blood cell count (cells/cumm)", [VInt 7000]);
    ("Estimated Glomerular Filtration Rate (eGFR)", [VFloat 90.00]);
    ("Urine protein-to-creatinine ratio", [VFloat 0.50]);
    ("Urine output (ml/day)", [VInt 1500]);
    ("Parathyroid hormone (PTH) level", [VFloat 40.00]);
    ("Interleukin-6 (IL-6) level", [VFloat 5.00]) ].

(** A classifier that names its features, in an order of its own. *)
Definition ordered_model : model :=
  {| predict := fun _ => inr [VStr "CKD"];
     feature_names_in_ :=
       Some [ "Serum creatinine (mg/dl)"; "Age of the patient";
              "Interleukin-6 (IL-6) level"; "Blood urea (mg/dl)";
              "Random blood glucose level (mg/dl)"; "Potassium level (mEq/L)";
              "White blood cell count (cells/cumm)";
              "Estimated Glomerular Filtration Rate (eGFR)";
              "Urine protein-to-creatinine ratio"; "Urine output (ml/day)";
              "Parathyroid hormone (PTH) level" ] |}.

(** ** A small program logic for runs *)

(** [steady I J c]: started in a session satisfying [I], the computation [c]
    either returns normally in a session satisfying [I], or ends with a signal
    (an exception, [st.rerun()], [st.stop()]) in a session satisfying [J]. *)
Definition steady {A} (I J : session_state -> Prop) (c : M A) : Prop :=
  ∀ w, I (session w) →
       match c w with
       | (Ok _, w') => I (session w')
       | (Sig _, w') => J (session w')
       end.

(** A session with the page replaced, as [set_page] leaves it. *)
Definition with_page (p : Z) (s : session_state) : session_state :=
  {| page := Some p; inputs := inputs s |}.

(** A session with one field of the record replaced, as [set_input] leaves it. *)
Definition with_input (k : string) (v : value) (d : gmap string value)
    (s : session_state) : session_state :=
  {| page := page s; inputs := Some (<[k := v]> d) |}.

(** Browser reports used in examples: nothing happened, or one button was
    pressed. *)
Definition quiet : frontend :=
  {| int_entry := fun _ => None; float_entry := fun _ => None; clicked := fun _ => false |}.

Definition press (key : string) : frontend :=
  {| int_entry := fun _ => None; float_entry := fun _ => None; clicked := String.eqb key |}.

(** Several runs in a row, one per browser report. *)
Definition runs (artifact : exn + model) (uis : list frontend) (s : session_state)
  : session_state :=
  foldl (fun s ui => session_after artifact ui s) s uis.

(** The browser reports of once round the wizard: start, next, analyze, home. *)
Definition round_trip : list frontend :=
  [ press "start_assessment"; press "next_to_kidney"; press "analyze";
    press "home_from_results" ].

(** A result that is not one of the two control signals. *)
Definition ordinary {A} (r : result A) : Prop :=
  match r with
  | Sig Rerun | Sig Stop => False
  | _ => True
  end.

(** [readonly c]: the computation never changes the session and never ends
    the run; it returns or raises an exception. *)
Definition readonly {A} (c : M A) : Prop :=
  ∀ w, session (snd (c w)) = session w ∧ ordinary (fst (c w)).

(** A control of the framework: it draws one element and returns what
    [control_value] computes, or raises what that raises. *)
Definition is_control (ui : frontend)
    (widget : string -> value -> value -> value -> M value) : Prop :=
  ∀ lbl lo hi cur w, ∃ el,
    widget lbl lo hi cur w =
    match control_value ui lbl lo hi cur with
    | inl e => (Sig (Raise e), w)
    | inr v => (Ok v, {| session := session w; trace := trace w ++ [Render el] |})
    end.

(** [passes P c]: from a session satisfying [P], the computation returns
    normally and leaves the session as it was. *)
Definition passes {A} (P : session_state -> Prop) (c : M A) : Prop :=
  ∀ w, P (session w) → ∃ a w', c w = (Ok a, w') ∧ session w' = session w.

(** [lands P c n]: from a session satisfying [P], the computation ends in
    [st.rerun()] with the page set to [n] and the session otherwise as it
    was. *)
Definition lands {A} (P : session_state -> Prop) (c : M A) (n : Z) : Prop :=
  ∀ w, P (session w) → ∃ w', c w = (Sig Rerun, w') ∧ session w' = with_page n (session w).

(** ** What a page does to the record, and what a run adds to the trace *)

(** The element an input statement draws. *)
Definition control_element (fc : field_control) : element :=
  match fc_kind fc with
  | KSlider => Slider (fc_label fc) (fc_lo fc) (fc_hi fc)
  | KNumberInput => NumberInput (fc_label fc) (fc_lo fc) (fc_hi fc)
  end.

(** The record after the input statement of one control: the field holds what
    the control returned for the value it held. *)
Definition apply_control (ui : frontend) (fc : field_control)
    (d : gmap string value) : gmap string value :=
  match d !! fc_key fc with
  | Some cur =>
      match control_value ui (fc_label fc) (fc_lo fc) (fc_hi fc) cur with
      | inr v => <[fc_key fc := v]> d
      | inl _ => d
      end
  | None => d
  end.

(** The record after the input statements of a list of controls. *)
Definition apply_controls (ui : frontend) (l : list field_control)
    (d : gmap string value) : gmap string value :=
  foldl (fun d fc => apply_control ui fc d) d l.

(** Every control of the list finds its field in the record, in range. *)
Definition controls_ok (d : gmap string value) (l : list field_control) : Prop :=
  Forall (fun fc => ∃ cur, d !! fc_key fc = Some cur ∧
                           within (fc_lo fc) (fc_hi fc) cur = true) l.

(** The controls a page shows: those of page 2, those of page 3, none
    elsewhere. *)
Definition page_controls (p : Z) : list field_control :=
  if p =? 2 then basic_controls
  else if p =? 3 then kidney_controls
  else [].

(** The navigation buttons at the foot of page 2. *)
Definition basic_buttons (ui : frontend) : M unit :=
  b ← st_button ui "🏠 Return to Home" "home_from_basic";
  (if b then go_to_page 1 else ret tt) ;;
  b ← st_button ui "Next →" "next_to_kidney";
  (if b then go_to_page 3 else ret tt).

(** The analyze button and the navigation buttons at the foot of page 3. *)
Definition kidney_buttons (ui : frontend) : M unit :=
  st_markdown (DivOpen "analyze-button") ;;
  b ← st_button ui "Analyze Kidney Health" "analyze";
  (if b then go_to_page 4 else ret tt) ;;
  st_markdown DivClose ;;
  b ← st_button ui "← Previous" "prev_to_basic";
  (if b then go_to_page 2 else ret tt) ;;
  b ← st_button ui "🏠 Return to Home" "home_from_kidney";
  (if b then go_to_page 1 else ret tt).

(** The page a run leaves a well-formed session on, from the buttons the
    browser reports: on each page the buttons are looked at in the order of
    the page and the first one pressed decides. *)
Definition next_page (ui : frontend) (p : Z) : Z :=
  if p =? 1 then (if clicked ui "start_assessment" then 2 else 1)
  else if p =? 2 then
    (if clicked ui "home_from_basic" then 1
     else if clicked ui "next_to_kidney" then 3 else 2)
  else if p =? 3 then
    (if clicked ui "analyze" then 4
     else if clicked ui "prev_to_basic" then 2
     else if clicked ui "home_from_kidney" then 1 else 3)
  else if p =? 4 then (if clicked ui "home_from_results" then 1 else 4)
  else p.

(** The session has a record, which agrees with [d] on every key outside
    [keys]. *)
Definition agrees_off (keys : list string) (d : gmap string value)
    (s : session_state) : Prop :=
  ∃ d', inputs s = Some d' ∧ ∀ k, k ∉ keys → d' !! k = d !! k.

(** The browser reports no pressed button. *)
Definition no_clicks (ui : frontend) : Prop := ∀ key, clicked ui key = false.

(** [adds P c]: whatever [c] does, it only appends to the trace, and every
    event it appends satisfies [P]. *)
Definition adds {A} (P : event -> Prop) (c : M A) : Prop :=
  ∀ w, ∃ t, trace (snd (c w)) = trace w ++ t ∧ Forall P t.

Definition is_render (ev : event) : Prop :=
  match ev with
  | Render _ => True
  | _ => False
  end.

Definition is_render_or_predict (ev : event) : Prop :=
  match ev with
  | Load _ => False
  | _ => True
  end.

(** A record from which one field was removed, and a session holding it. *)
Definition broken_session (k : string) (p : Z) : session_state :=
  {| page := Some p; inputs := Some (delete k default_inputs) |}.

(** A classifier that returns an empty array. *)
Definition silent_model : model :=
  {| predict := fun _ => inr []; feature_names_in_ := None |}.

(** The browser reports an entry in one float control and a pressed button. *)
Definition enter_float_and_press (lbl : string) (x : float) (key : string) : frontend :=
  {| int_entry := fun _ => None;
     float_entry := fun l => if String.eqb l lbl then Some x else None;
     clicked := String.eqb key |}.

Section Steady.
Context {I J : session_state -> Prop}.
Hypothesis IJ : ∀ s, I s → J s.

Lemma steady_ret {A} (a : A) : steady I J (ret a).
Proof. intros w Hw. exact Hw. Qed.

Lemma steady_bind {A B} (c : M A) (k : A -> M B) :
  steady I J c → (∀ a, steady I J (k a)) → steady I J (bind c k).
Proof.
  intros Hc Hk w Hw. unfold bind.
  specialize (Hc w Hw). destruct (c w) as [[a|sg] w1]; [|exact Hc].
  exact (Hk a w1 Hc).
Qed.

Lemma steady_raise {A} (e : exn) : steady I J (@raise A e).
Proof. intros w Hw. apply IJ, Hw. Qed.

Lemma steady_lift {A} (r : exn + A) : steady I J (lift r).
Proof. destruct r; [apply steady_raise | apply steady_ret]. Qed.

Lemma steady_emit (ev : event) : steady I J (emit ev).
Proof. intros w Hw. exact Hw. Qed.

Lemma steady_get_page : steady I J get_page.
Proof.
  intros w Hw. unfold get_page. destruct (page (session w)); [exact Hw | apply IJ, Hw].
Qed.

Lemma steady_get_input (k : string) : steady I J (get_input k).
Proof.
  intros w Hw. unfold get_input.
  destruct (inputs (session w)) as [d|]; [|apply IJ, Hw].
  destruct (d !! k); [exact Hw | apply IJ, Hw].
Qed.

Lemma steady_if {A} (b : bool) (c1 c2 : M A) :
  steady I J c1 → steady I J c2 → steady I J (if b then c1 else c2).
Proof. destruct b; auto. Qed.

Lemma steady_button (ui : frontend) (lbl key : string) :
  steady I J (st_button ui lbl key).
Proof. intros w Hw. exact Hw. Qed.

(** [go_to_page] always ends the run; the session it leaves has the new
    page and must satisfy [J]. *)
Lemma steady_go_to_page (n : Z) :
  (∀ s, I s → J (with_page n s)) → steady I J (go_to_page n).
Proof. intros Hn w Hw. apply Hn, Hw. Qed.

(** A body that leaves the session alone, with a handler that is steady. *)
Lemma steady_try_except {A} (body : M A) (handler : exn -> M A) :
  steady I I body → (∀ e, steady I J (handler e)) →
  steady I J (try_except body handler).
Proof.
  intros Hb Hh w Hw. unfold try_except.
  specialize (Hb w Hw). destruct (body w) as [[a|[e| |]] w1]; auto.
  exact (Hh e w1 Hb).
Qed.

(** An input statement is steady when [I] survives the store of whatever
    the control returns for the value it was shown. *)
Lemma steady_input_statement (ui : frontend) (k lbl : string) (lo hi : value)
    (widget : string -> value -> value -> value -> M value) :
  is_control ui widget →
  (∀ s d cur v, I s → inputs s = Some d → d !! k = Some cur →
                control_value ui lbl lo hi cur = inr v →
                I (with_input k v d s)) →
  steady I J (input_statement widget k lbl lo hi).
Proof.
  intros Hc Hstore w Hw. unfold input_statement, bind, get_input.
  destruct (inputs (session w)) as [d|] eqn:Hd; [|apply IJ, Hw].
  destruct (d !! k) as [cur|] eqn:Hk; [|apply IJ, Hw].
  destruct (Hc lbl lo hi cur w) as [el ->].
  destruct (control_value ui lbl lo hi cur) as [e|v] eqn:Hv; [apply IJ, Hw|].
  unfold set_input. simpl. rewrite Hd. simpl.
  apply (Hstore (session w) d cur v); auto.
Qed.
End Steady.

Lemma slider_is_control (ui : frontend) : is_control ui (st_slider ui).
Proof.
  intros lbl lo hi cur w. exists (Slider lbl lo hi). unfold st_slider, bind, lift.
  by destruct (control_value ui lbl lo hi cur).
Qed.

Lemma number_input_is_control (ui : frontend) : is_control ui (st_number_input ui).
Proof.
  intros lbl lo hi cur w. exists (NumberInput lbl lo hi). unfold st_number_input, bind, lift.
  by destruct (control_value ui lbl lo hi cur).
Qed.

(** ** Ranges *)

(** The rows of [field_table] are the keys and bounds of the input statements
    of the two pages, in their order. *)
Lemma field_table_controls :
  map (fun fc => (fc_key fc, (fc_lo fc, fc_hi fc))) (basic_controls ++ kidney_controls)
  = field_table.
Proof. reflexivity. Qed.

Lemma field_table_keys : NoDup field_table.*1.
Proof. compute_done. Qed.

Lemma field_table_functional k r r' :
  (k, r) ∈ field_table → (k, r') ∈ field_table → r = r'.
Proof.
  intros H1 H2.
  apply (elem_of_list_to_map_1 (M := gmap string) _ _ _ field_table_keys) in H1.
  apply (elem_of_list_to_map_1 (M := gmap string) _ _ _ field_table_keys) in H2.
  congruence.
Qed.

Lemma record_ok_field d k lo hi :
  record_ok d → (k, (lo, hi)) ∈ field_table →
  ∃ v, d !! k = Some v ∧ within lo hi v = true.
Proof.
  intros Hd Hin. unfold record_ok in Hd. rewrite Forall_forall in Hd.
  specialize (Hd _ Hin). unfold field_okb in Hd. simpl in Hd.
  destruct (d !! k) as [v|]; [eauto | discriminate].
Qed.

Lemma record_ok_insert d k lo hi v :
  record_ok d → (k, (lo, hi)) ∈ field_table → within lo hi v = true →
  record_ok (<[k := v]> d).
Proof.
  intros Hd Hin Hv. unfold record_ok in *. rewrite Forall_forall in *.
  intros [k' r'] Hin'. unfold field_okb; simpl.
  destruct (decide (k = k')) as [<-|Hne].
  - rewrite lookup_insert_eq.
    by rewrite <- (field_table_functional _ _ _ Hin Hin').
  - rewrite lookup_insert_ne by done. apply (Hd _ Hin').
Qed.

Lemma clamp_int_within lo hi e :
  lo <= hi → lo <= clamp_int lo hi e <= hi.
Proof.
  intros Hb. unfold clamp_int.
  destruct (Z.leb_spec lo e); [destruct (Z.leb_spec e hi)|]; lia.
Qed.

(** On floats only what evaluation gives is used: the comparisons made by
    [clamp_float] itself and the two bounds compared with each other. *)
Lemma clamp_float_within lo hi e :
  PrimFloat.leb lo lo = true → PrimFloat.leb lo hi = true →
  PrimFloat.leb hi hi = true →
  PrimFloat.leb lo (clamp_float lo hi e) && PrimFloat.leb (clamp_float lo hi e) hi = true.
Proof.
  intros Hll Hlh Hhh. unfold clamp_float.
  destruct (PrimFloat.leb lo e) eqn:H1; [destruct (PrimFloat.leb e hi) eqn:H2|];
    by rewrite ?H1, ?H2, ?Hll, ?Hlh, ?Hhh.
Qed.

Lemma control_value_within ui lbl lo hi cur v :
  within lo hi lo = true → within lo hi hi = true → within lo hi cur = true →
  control_value ui lbl lo hi cur = inr v →
  within lo hi v = true.
Proof.
  intros Hlo Hhi Hcur Hv.
  destruct lo as [l|l|], hi as [h|h|], cur as [c|c|]; try discriminate; simpl in *.
  - injection Hv as <-. unfold int_control. destruct (int_entry ui lbl) as [e|]; [|done].
    apply andb_true_iff in Hlo as [_ Hlh%Z.leb_le].
    pose proof (clamp_int_within l h e Hlh). apply andb_true_iff; split; apply Z.leb_le; lia.
  - injection Hv as <-. unfold float_control. destruct (float_entry ui lbl) as [e|]; [|done].
    apply andb_true_iff in Hlo as [Hll Hlh]. apply andb_true_iff in Hhi as [_ Hhh].
    by apply clamp_float_within.
Qed.

(** ** What only reads the session *)

Lemma readonly_ret {A} (a : A) : readonly (ret a).
Proof. by intros w. Qed.

Lemma readonly_bind {A B} (c : M A) (k : A -> M B) :
  readonly c → (∀ a, readonly (k a)) → readonly (bind c k).
Proof.
  intros Hc Hk w. unfold bind. destruct (Hc w) as [Hs Ho].
  destruct (c w) as [[a|sg] w1]; simpl in *; [|done].
  destruct (Hk a w1) as [Hs' Ho']. by rewrite Hs'.
Qed.

Lemma readonly_try_except {A} (body : M A) (handler : exn -> M A) :
  readonly body → (∀ e, readonly (handler e)) → readonly (try_except body handler).
Proof.
  intros Hb Hh w. unfold try_except. destruct (Hb w) as [Hs Ho].
  destruct (body w) as [[a|[e| |]] w1]; simpl in *; try done.
  destruct (Hh e w1) as [Hs' Ho']. by rewrite Hs'.
Qed.

Lemma readonly_emit ev : readonly (emit ev).
Proof. by intros w. Qed.

Lemma readonly_raise {A} e : readonly (@raise A e).
Proof. by intros w. Qed.

Lemma readonly_lift {A} (r : exn + A) : readonly (lift r).
Proof. destruct r; [apply readonly_raise | apply readonly_ret]. Qed.

Lemma readonly_get_input k : readonly (get_input k).
Proof.
  intros w. unfold get_input.
  destruct (inputs (session w)) as [d|]; [destruct (d !! k)|]; done.
Qed.

Lemma readonly_get_page : readonly get_page.
Proof. intros w. unfold get_page. by destruct (page (session w)). Qed.

Ltac readonly_step :=
  lazymatch goal with
  | |- readonly (bind _ _) => apply readonly_bind; [|intros ?]
  | |- readonly (try_except _ _) => apply readonly_try_except; [|intros ?]
  | |- readonly (ret _) => apply readonly_ret
  | |- readonly (emit _) => apply readonly_emit
  | |- readonly (st_markdown _) => apply readonly_emit
  | |- readonly (st_error _ _) => apply readonly_emit
  | |- readonly (st_button _ _ _) => by intros ?
  | |- readonly (get_input _) => apply readonly_get_input
  | |- readonly get_page => apply readonly_get_page
  | |- readonly (lift _) => apply readonly_lift
  | |- readonly (raise _) => apply readonly_raise
  | |- readonly (match ?x with _ => _ end) => destruct x
  end.

Lemma build_input_data_readonly : readonly build_input_data.
Proof. unfold build_input_data. repeat readonly_step. Qed.

Lemma raw_prediction_readonly m : readonly (raw_prediction m).
Proof.
  unfold raw_prediction, model_predict, first_item.
  apply readonly_bind; [apply build_input_data_readonly|intros ?].
  repeat readonly_step.
Qed.

Lemma show_prediction_readonly v : readonly (show_prediction v).
Proof. unfold show_prediction. repeat readonly_step. Qed.

(** The body of the [try] of the results page. *)
Lemma prediction_block_body_readonly m :
  readonly (bind (raw_prediction m) show_prediction).
Proof.
  apply readonly_bind; auto using raw_prediction_readonly, show_prediction_readonly.
Qed.

Lemma steady_readonly {A} (I J : session_state -> Prop) (c : M A) :
  (∀ s, I s → J s) → readonly c → steady I J c.
Proof.
  intros IJ Hc w Hw. destruct (Hc w) as [Hs _].
  destruct (c w) as [[a|sg] w1]; simpl in *; rewrite Hs; auto.
Qed.

(** ** Every page keeps the session well formed *)

Lemma active_ok_with_page n s : page_ok n → active_ok s → active_ok (with_page n s).
Proof.
  unfold active_ok, with_page. simpl. intros Hn.
  destruct (page s), (inputs s); tauto.
Qed.

Lemma active_ok_store ui k lbl lo hi s d cur v :
  (k, (lo, hi)) ∈ field_table →
  within lo hi lo = true → within lo hi hi = true →
  active_ok s → inputs s = Some d → d !! k = Some cur →
  control_value ui lbl lo hi cur = inr v →
  active_ok (with_input k v d s).
Proof.
  intros Hin Hlo Hhi Hs Hd Hk Hv. unfold active_ok, with_input in *. simpl.
  rewrite Hd in Hs. destruct (page s); [|done]. destruct Hs as [Hp Hrec]. split; [done|].
  destruct (record_ok_field d k lo hi Hrec Hin) as (c & Hc & Hwithin).
  assert (c = cur) as -> by congruence.
  eapply record_ok_insert; eauto using control_value_within.
Qed.

(** An input statement of the pages: the field and the bounds are a row of
    [field_table]. *)
Ltac steady_field :=
  eapply steady_input_statement;
  [ auto
  | first [apply slider_is_control | apply number_input_is_control]
  | intros; eapply active_ok_store;
    [ | | | eassumption | eassumption | eassumption | eassumption ];
    [ repeat constructor | reflexivity | reflexivity ] ].

Ltac steady_goto :=
  apply steady_go_to_page; intros; apply active_ok_with_page;
  [unfold page_ok; lia | assumption].

Ltac steady_step tac :=
  lazymatch goal with
  | |- steady _ _ (go_to_page _) => tac
  | |- steady _ _ (input_statement _ _ _ _ _) => tac
  | |- steady _ _ (bind _ _) => apply steady_bind; [|intros ?]
  | |- steady _ _ (if _ then _ else _) => apply steady_if
  | |- steady _ _ (ret _) => apply steady_ret
  | |- steady _ _ (st_markdown _) => apply steady_emit
  | |- steady _ _ (st_error _ _) => apply steady_emit
  | |- steady _ _ (emit _) => apply steady_emit
  | |- steady _ _ (st_button _ _ _) => apply steady_button
  | |- steady _ _ get_page => apply steady_get_page
  | |- steady _ _ (get_input _) => apply steady_get_input
  | |- steady _ _ (lift _) => apply steady_lift
  | |- steady _ _ (raise _) => apply steady_raise
  | |- steady _ _ (try_except _ _) =>
      apply steady_try_except;
      [ | apply steady_readonly; [|apply prediction_block_body_readonly] | intros ? ]
  end.

Ltac steady_ok := repeat (steady_step ltac:(first [steady_goto | steady_field])); auto.

Lemma welcome_page_ok ui : steady active_ok active_ok (welcome_page ui).
Proof. unfold welcome_page. steady_ok. Qed.

Lemma basic_metrics_page_ok ui : steady active_ok active_ok (basic_metrics_page ui).
Proof.
  unfold basic_metrics_page. steady_ok.
Qed.

Lemma kidney_metrics_page_ok ui : steady active_ok active_ok (kidney_metrics_page ui).
Proof.
  unfold kidney_metrics_page. steady_ok.
Qed.

Lemma results_page_ok m ui : steady active_ok active_ok (results_page m ui).
Proof. unfold results_page. steady_ok. Qed.

Lemma router_ok m ui : steady active_ok active_ok (router m ui).
Proof.
  unfold router. apply steady_bind; [by apply steady_get_page|intros p].
  repeat apply steady_if;
    auto using welcome_page_ok, basic_metrics_page_ok, kidney_metrics_page_ok,
               results_page_ok, steady_ret.
Qed.

(** ** What a run of the script comes to *)

Lemma run_script_load_failed e ui s :
  run_script (inl e) ui s =
  (Sig Stop,
   {| session := s;
      trace := [Load "best_gb_model_tuned.pkl";
                Render (ErrorBox "Error loading model: " e)] |}).
Proof. reflexivity. Qed.

Lemma run_script_loaded m ui s :
  run_script (inr m) ui s =
  router m ui {| session := session_init s; trace := [Load "best_gb_model_tuned.pkl"] |}.
Proof.
  unfold run_script, script, bind, try_except, joblib_load, bind, init_session, session_init.
  simpl. by destruct (page s).
Qed.

Lemma record_ok_default : record_ok default_inputs.
Proof. unfold record_ok. repeat constructor. Qed.

Lemma session_init_ok s : session_ok s → active_ok (session_init s).
Proof.
  intros [-> | Hs].
  - unfold active_ok, session_init, page_ok. simpl. split; [lia | apply record_ok_default].
  - unfold session_init. destruct (page s) eqn:Hp; [exact Hs|].
    unfold active_ok in Hs. by rewrite Hp in Hs.
Qed.

Lemma session_after_ok artifact ui s :
  session_ok s → session_ok (session_after artifact ui s).
Proof.
  intros Hs. unfold session_after. destruct artifact as [e|m].
  - by rewrite run_script_load_failed.
  - rewrite run_script_loaded. right.
    pose proof (router_ok m ui
      {| session := session_init s; trace := [Load "best_gb_model_tuned.pkl"] |}
      (session_init_ok s Hs)) as H.
    by destruct (router m ui _) as [[[]|sg] w1].
Qed.

Lemma reachable_ok artifact s : reachable artifact s → session_ok s.
Proof.
  induction 1 as [|ui s _ IH]; [by left | by apply session_after_ok].
Qed.

Lemma reachable_runs artifact uis s :
  reachable artifact s → reachable artifact (runs artifact uis s).
Proof.
  revert s. induction uis as [|ui uis IH]; intros s Hs; [done|].
  apply IH. by constructor.
Qed.

(** ** The router takes exactly one branch *)

Lemma page_ok_step p : page_ok p → ∃ st, step_of_page p = Some st.
Proof.
  unfold page_ok. intros Hp.
  assert (p = 1 ∨ p = 2 ∨ p = 3 ∨ p = 4) as [-> | [-> | [-> | ->]]] by lia; by eexists.
Qed.

Lemma router_dispatch m ui w p st :
  page (session w) = Some p → step_of_page p = Some st →
  router m ui w = page_function m ui st w.
Proof.
  intros Hp Hst. unfold router, bind, get_page. rewrite Hp.
  unfold step_of_page in Hst.
  repeat (destruct (p =? _); [by injection Hst as <-|]). discriminate.
Qed.

Lemma router_no_page m ui w p :
  page (session w) = Some p → step_of_page p = None →
  router m ui w = (Ok tt, w).
Proof.
  intros Hp Hst. unfold router, bind, get_page. rewrite Hp.
  unfold step_of_page in Hst.
  repeat (destruct (p =? _); [discriminate|]). done.
Qed.

(** ** Fields and ranges, explicitly *)

Lemma within_int_between l h (d : gmap string value) (k : string) :
  (∃ v, d !! k = Some v ∧ within (VInt l) (VInt h) v = true) →
  int_between l h (d !! k).
Proof.
  intros (v & -> & Hv). destruct v as [n| |]; try discriminate.
  simpl in Hv. apply andb_true_iff in Hv as [?%Z.leb_le ?%Z.leb_le]. by exists n.
Qed.

Lemma within_float_between l h (d : gmap string value) (k : string) :
  (∃ v, d !! k = Some v ∧ within (VFloat l) (VFloat h) v = true) →
  float_between l h (d !! k).
Proof.
  intros (v & -> & Hv). destruct v as [|x|]; try discriminate.
  simpl in Hv. apply andb_true_iff in Hv as [? ?]. by exists x.
Qed.

Lemma record_ok_declared d : record_ok d → in_declared_ranges d.
Proof.
  intros Hd. unfold in_declared_ranges.
  repeat split;
    first [apply within_int_between | apply within_float_between];
    apply record_ok_field; auto; repeat constructor.
Qed.

Lemma clamp_int_nearest lo hi e :
  lo <= hi → clamp_int lo hi e = Z.max lo (Z.min hi e).
Proof.
  intros Hb. unfold clamp_int.
  destruct (Z.leb_spec lo e); [destruct (Z.leb_spec e hi)|]; lia.
Qed.

(** The entry of 250 is stored as 100. *)
Example age_entry_clamped :
  inputs (runs (inr sample_model)
            [quiet; press "start_assessment"; enter_int "Age of the patient (years)" 250]
            new_session) ≫= (.!! "age")
  = Some (VInt 100).
Proof. vm_compute. reflexivity. Qed.

(** C9. The page of a session is initialised to 1 and, in every session the
    script can bring about, a page that is set is one of 1, 2, 3, 4; so when
    the model is loaded the router calls exactly one of the four page
    functions, on the session as [init_session] leaves it.  (A session in
    which the model never loaded has no page: the script stops before the
    router.) *)
Theorem page_is_one_of_four :
  (∀ tr, init_session {| session := new_session; trace := tr |} =
         (Ok tt, {| session := {| page := Some 1; inputs := Some default_inputs |};
                    trace := tr |})) ∧
  (∀ artifact s, reachable artifact s →
     (∀ p, page s = Some p → p = 1 ∨ p = 2 ∨ p = 3 ∨ p = 4) ∧
     (∀ m ui, ∃ st,
        current_step (session_init s) = Some st ∧
        run_script (inr m) ui s =
        page_function m ui st
          {| session := session_init s; trace := [Load "best_gb_model_tuned.pkl"] |})).
Proof.
  split; [reflexivity|].
  intros artifact s Hs. apply reachable_ok in Hs. split.
  - intros p Hp. destruct Hs as [-> | Hok]; [discriminate|].
    unfold active_ok in Hok. rewrite Hp in Hok.
    destruct (inputs s); [|done]. destruct Hok as [Hok _]. unfold page_ok in Hok. lia.
  - intros m ui. apply session_init_ok in Hs. unfold active_ok in Hs.
    destruct (page (session_init s)) as [p|] eqn:Hp; [|done].
    destruct (inputs (session_init s)); [|done]. destruct Hs as [Hpok _].
    destruct (page_ok_step p Hpok) as [st Hst]. exists st. split.
    + unfold current_step. by rewrite Hp.
    + rewrite run_script_loaded. by apply router_dispatch with p.
Qed.

(** The theorem at the session three runs old of the example above. *)
Lemma page_is_one_of_four_witness :
  reachable (inr sample_model)
    (runs (inr sample_model)
       [quiet; press "start_assessment"; enter_int "Age of the patient (years)" 250]
       new_session) ∧
  ∀ p, page (runs (inr sample_model)
               [quiet; press "start_assessment"; enter_int "Age of the patient (years)" 250]
               new_session) = Some p →
       p = 1 ∨ p = 2 ∨ p = 3 ∨ p = 4.
Proof.
  assert (reachable (inr sample_model)
            (runs (inr sample_model)
               [quiet; press "start_assessment"; enter_int "Age of the patient (years)" 250]
               new_session)) as Hr
    by (apply reachable_runs, reach_new).
  split; [exact Hr|].
  exact (proj1 (proj2 page_is_one_of_four _ _ Hr)).
Defined.

(** ** The page only moves along the declared transitions *)

Lemma at_near p s : at_page p s → near_page p s.
Proof. intros Hs. exists p. by split; [|left]. Qed.

Ltac steady_goto_near :=
  apply steady_go_to_page;
  intros ? _; unfold near_page, page_transition; simpl;
  eexists; split; [reflexivity|];
  right; eexists _, _; split; [reflexivity|split; [reflexivity|constructor]].

Ltac steady_field_near :=
  eapply steady_input_statement;
  [ apply at_near
  | first [apply slider_is_control | apply number_input_is_control]
  | intros; assumption ].

Ltac steady_near :=
  repeat (steady_step ltac:(first [steady_goto_near | steady_field_near]));
  auto using at_near.

Lemma welcome_page_near ui : steady (at_page 1) (near_page 1) (welcome_page ui).
Proof. unfold welcome_page. steady_near. Qed.

Lemma basic_metrics_page_near ui : steady (at_page 2) (near_page 2) (basic_metrics_page ui).
Proof. unfold basic_metrics_page. steady_near. Qed.

Lemma kidney_metrics_page_near ui : steady (at_page 3) (near_page 3) (kidney_metrics_page ui).
Proof. unfold kidney_metrics_page. steady_near. Qed.

Lemma results_page_near m ui : steady (at_page 4) (near_page 4) (results_page m ui).
Proof. unfold results_page. steady_near. Qed.

Lemma step_of_page_inv p st :
  step_of_page p = Some st → p = page_of_step st.
Proof.
  unfold step_of_page.
  destruct (Z.eqb_spec p 1); [by intros [= <-]|].
  destruct (Z.eqb_spec p 2); [by intros [= <-]|].
  destruct (Z.eqb_spec p 3); [by intros [= <-]|].
  destruct (Z.eqb_spec p 4); [by intros [= <-]|discriminate].
Qed.

Lemma page_function_near m ui p st :
  step_of_page p = Some st →
  steady (at_page p) (near_page p) (page_function m ui st).
Proof.
  intros ->%step_of_page_inv.
  destruct st; simpl;
    auto using welcome_page_near, basic_metrics_page_near, kidney_metrics_page_near,
               results_page_near.
Qed.

Lemma session_init_page s p : page s = Some p → session_init s = s.
Proof. unfold session_init. by intros ->. Qed.

Lemma session_after_near artifact ui s p :
  page s = Some p → near_page p (session_after artifact ui s).
Proof.
  intros Hp. unfold session_after. destruct artifact as [e|m].
  - rewrite run_script_load_failed. by apply at_near.
  - rewrite run_script_loaded, (session_init_page s p Hp).
    destruct (step_of_page p) as [st|] eqn:Hst.
    + erewrite router_dispatch by eauto.
      pose proof (page_function_near m ui p st Hst
        {| session := s; trace := [Load "best_gb_model_tuned.pkl"] |} Hp) as H.
      destruct (page_function m ui st _) as [[[]|sg] w1]; simpl; [by apply at_near | done].
    + erewrite router_no_page by eauto. by apply at_near.
Qed.

(** ** Runs that go through, and runs that end in a page change *)

Section Passes.
Context {P : session_state -> Prop}.

Lemma passes_ret {A} (a : A) : passes P (ret a).
Proof. intros w _. by exists a, w. Qed.

Lemma passes_emit ev : passes P (emit ev).
Proof. intros w _. by eexists _, _. Qed.

Lemma passes_bind {A B} (c : M A) (k : A -> M B) :
  passes P c → (∀ a, passes P (k a)) → passes P (bind c k).
Proof.
  intros Hc Hk w Hw. destruct (Hc w Hw) as (a & w1 & Hcw & Hs1).
  destruct (Hk a w1) as (b & w2 & Hkw & Hs2); [by rewrite Hs1|].
  exists b, w2. unfold bind. rewrite Hcw. split; [done | congruence].
Qed.

(** A button, with what the browser reports for it. *)
Lemma passes_button {B} ui lbl key (b : bool) (k : bool -> M B) :
  clicked ui key = b → passes P (k b) → passes P (bind (st_button ui lbl key) k).
Proof.
  intros <- Hk w Hw. unfold st_button, bind, emit, ret. simpl.
  apply (Hk {| session := session w; trace := trace w ++ [Render (Button lbl key)] |} Hw).
Qed.

(** A [try] whose body only reads the session, with a handler that passes. *)
Lemma passes_try_except {A} (body : M A) (handler : exn -> M A) :
  readonly body → (∀ e, passes P (handler e)) → passes P (try_except body handler).
Proof.
  intros Hb Hh w Hw. unfold try_except. destruct (Hb w) as [Hs Ho].
  destruct (body w) as [[a|[e| |]] w1]; simpl in *; try done.
  - by exists a, w1.
  - destruct (Hh e w1) as (a & w2 & Hw2 & Hs2); [by rewrite Hs|].
    exists a, w2. split; [done | congruence].
Qed.

Lemma lands_go_to_page n : lands P (go_to_page n) n.
Proof. intros w _. by eexists. Qed.

Lemma lands_bind_now {A B} (c : M A) (k : A -> M B) n :
  lands P c n → lands P (bind c k) n.
Proof.
  intros Hc w Hw. destruct (Hc w Hw) as (w1 & Hcw & Hs1).
  exists w1. unfold bind. by rewrite Hcw.
Qed.

Lemma lands_bind_later {A B} (c : M A) (k : A -> M B) n :
  passes P c → (∀ a, lands P (k a) n) → lands P (bind c k) n.
Proof.
  intros Hc Hk w Hw. destruct (Hc w Hw) as (a & w1 & Hcw & Hs1).
  destruct (Hk a w1) as (w2 & Hkw & Hs2); [by rewrite Hs1|].
  exists w2. unfold bind. rewrite Hcw. split; [done | congruence].
Qed.

Lemma lands_button {B} ui lbl key (b : bool) (k : bool -> M B) n :
  clicked ui key = b → lands P (k b) n → lands P (bind (st_button ui lbl key) k) n.
Proof.
  intros <- Hk w Hw. unfold st_button, bind, emit, ret. simpl.
  apply (Hk {| session := session w; trace := trace w ++ [Render (Button lbl key)] |} Hw).
Qed.

End Passes.

Lemma press_no_entries key : no_entries (press key).
Proof. by split. Qed.

Lemma quiet_no_entries : no_entries quiet.
Proof. by split. Qed.

Lemma control_value_no_entry ui lbl lo hi cur :
  no_entries ui → within lo hi cur = true →
  control_value ui lbl lo hi cur = inr cur.
Proof.
  intros [Hi Hf] Hcur. unfold control_value, int_control, float_control.
  rewrite Hi, Hf. by destruct lo, hi, cur.
Qed.

Lemma session_eta (s : session_state) d :
  inputs s = Some d → {| page := page s; inputs := Some d |} = s.
Proof. destruct s; simpl. by intros ->. Qed.

(** With no entry, an input statement on a well-formed record stores back
    the value that was there. *)
Lemma passes_input_statement ui widget k lbl lo hi :
  no_entries ui → is_control ui widget → (k, (lo, hi)) ∈ field_table →
  passes active_ok (input_statement widget k lbl lo hi).
Proof.
  intros Hui Hc Hin w Hw. unfold active_ok in Hw.
  destruct (page (session w)) as [p|] eqn:Hp; [|done].
  destruct (inputs (session w)) as [d|] eqn:Hd; [|done].
  destruct Hw as [_ Hrec].
  destruct (record_ok_field d k lo hi Hrec Hin) as (cur & Hk & Hcur).
  unfold input_statement, bind, get_input. rewrite Hd, Hk.
  destruct (Hc lbl lo hi cur w) as [el ->].
  rewrite (control_value_no_entry ui lbl lo hi cur Hui Hcur).
  unfold set_input. simpl. rewrite Hd. eexists _, _. split; [reflexivity|]. simpl.
  rewrite (insert_id d k cur Hk). by apply session_eta.
Qed.

Ltac passes_step :=
  lazymatch goal with
  | |- passes _ (bind (st_button _ _ _) _) =>
      eapply passes_button; [vm_compute; reflexivity | cbv beta iota]
  | |- passes _ (bind _ _) => apply passes_bind; [|intros ?]
  | |- passes _ (ret _) => apply passes_ret
  | |- passes _ (emit _) => apply passes_emit
  | |- passes _ (st_markdown _) => apply passes_emit
  | |- passes _ (st_error _ _) => apply passes_emit
  | |- passes _ (try_except _ _) =>
      apply passes_try_except; [apply prediction_block_body_readonly | intros ?]
  | |- passes _ (input_statement _ _ _ _ _) =>
      eapply passes_input_statement;
      [ | first [apply slider_is_control | apply number_input_is_control]
        | repeat constructor ];
      first [apply press_no_entries | apply quiet_no_entries | assumption]
  end.

Ltac lands_step :=
  lazymatch goal with
  | |- lands _ (bind (st_button _ _ _) _) _ =>
      eapply lands_button; [vm_compute; reflexivity | cbv beta iota]
  | |- lands _ (bind (go_to_page _) _) _ => apply lands_bind_now, lands_go_to_page
  | |- lands _ (go_to_page _) _ => apply lands_go_to_page
  | |- lands _ (bind _ _) _ => apply lands_bind_later; [repeat passes_step | intros ?]
  end.

Lemma transition_lands m a b :
  transition a b →
  lands active_ok (page_function m (press (transition_button a b)) a) (page_of_step b).
Proof.
  destruct 1; simpl;
    unfold welcome_page, basic_metrics_page, kidney_metrics_page, results_page;
    repeat lands_step.
Qed.

Lemma current_step_page s st : current_step s = Some st → page s = Some (page_of_step st).
Proof.
  unfold current_step. destruct (page s) as [p|]; [|discriminate]. simpl.
  by intros ->%step_of_page_inv.
Qed.

Lemma step_of_page_of_step st : step_of_page (page_of_step st) = Some st.
Proof. by destruct st. Qed.

(** C8. A run of the script changes the step only along a declared
    transition: from a session on step [a] the session after the run is on
    [a] still or on a step [b] with [a -> b] declared; a new session comes
    out at Welcome, or one declared transition from it.  Every declared
    transition is taken: pressing its button in a well-formed session on [a],
    with the model loaded, leaves the session on [b]. *)
Theorem step_follows_declared_transitions :
  (∀ artifact ui s a b,
     current_step s = Some a →
     current_step (session_after artifact ui s) = Some b →
     a = b ∨ transition a b) ∧
  (∀ artifact ui b,
     current_step (session_after artifact ui new_session) = Some b →
     b = Welcome ∨ transition Welcome b) ∧
  (∀ m s a b,
     transition a b → active_ok s → current_step s = Some a →
     current_step (session_after (inr m) (press (transition_button a b)) s) = Some b).
Proof.
  assert (∀ artifact ui s a b,
     current_step s = Some a →
     current_step (session_after artifact ui s) = Some b →
     a = b ∨ transition a b) as Hsafe.
  { intros artifact ui s a b Ha Hb.
    pose proof (current_step_page s a Ha) as Hp.
    destruct (session_after_near artifact ui s _ Hp) as (q & Hq & Hstep).
    unfold current_step in Hb. rewrite Hq in Hb. simpl in Hb.
    destruct Hstep as [-> | (a' & b' & Ha' & Hb' & Ht)].
    - left. rewrite step_of_page_of_step in Hb. congruence.
    - right. rewrite step_of_page_of_step in Ha'. congruence. }
  split; [exact Hsafe|split].
  - intros artifact ui b. destruct artifact as [e|m].
    + unfold session_after. rewrite run_script_load_failed. discriminate.
    + intros Hb. destruct (Hsafe (inr m) ui (session_init new_session) Welcome b) as [<-|Ht];
        auto.
  - intros m s a b Ht Hs Ha.
    pose proof (current_step_page s a Ha) as Hp.
    unfold session_after. rewrite run_script_loaded, (session_init_page s _ Hp).
    erewrite router_dispatch by eauto using step_of_page_of_step.
    destruct (transition_lands m a b Ht
      {| session := s; trace := [Load "best_gb_model_tuned.pkl"] |} Hs) as (w' & -> & Hw').
    simpl. rewrite Hw'. unfold current_step. simpl. apply step_of_page_of_step.
Qed.

(** The theorem at the second run of a session: the first opened it at
    Welcome, the second presses the start button. *)
Lemma step_follows_declared_transitions_witness :
  current_step (session_after (inr sample_model) quiet new_session) = Some Welcome ∧
  current_step (session_after (inr sample_model) (press "start_assessment")
                  (session_after (inr sample_model) quiet new_session))
    = Some BasicMetrics ∧
  (Welcome = BasicMetrics ∨ transition Welcome BasicMetrics).
Proof.
  split; [reflexivity|]. split; [reflexivity|].
  apply (proj1 step_follows_declared_transitions (inr sample_model)
           (press "start_assessment")
           (session_after (inr sample_model) quiet new_session));
    reflexivity.
Defined.

(** ** Navigation leaves the record alone *)

Lemma control_value_no_entry_inv ui lbl lo hi cur v :
  no_entries ui → control_value ui lbl lo hi cur = inr v → v = cur.
Proof.
  intros [Hi Hf]. unfold control_value, int_control, float_control.
  rewrite Hi, Hf. destruct lo, hi, cur; congruence.
Qed.

Lemma record_is_store ui k lbl lo hi x s d cur v :
  no_entries ui →
  record_is x s → inputs s = Some d → d !! k = Some cur →
  control_value ui lbl lo hi cur = inr v →
  record_is x (with_input k v d s).
Proof.
  intros Hui Hx Hd Hk Hv. apply control_value_no_entry_inv in Hv as ->; [|done].
  unfold record_is, with_input in *. simpl. rewrite (insert_id d k cur Hk). congruence.
Qed.

Ltac steady_field_frame :=
  eapply steady_input_statement;
  [ auto
  | first [apply slider_is_control | apply number_input_is_control]
  | intros; eapply record_is_store; eauto ].

Ltac steady_frame :=
  repeat (steady_step ltac:(first [by apply steady_go_to_page | steady_field_frame]));
  auto.

Lemma page_function_frame m ui st x :
  no_entries ui → steady (record_is x) (record_is x) (page_function m ui st).
Proof.
  intros Hui.
  destruct st; simpl;
    unfold welcome_page, basic_metrics_page, kidney_metrics_page, results_page;
    steady_frame.
Qed.

(** The results page has no control: it leaves the record alone whatever the
    browser reports. *)
Lemma results_page_frame m ui x :
  steady (record_is x) (record_is x) (results_page m ui).
Proof. unfold results_page. steady_frame. Qed.

Lemma steady_session {A} (I : session_state -> Prop) (c : M A) w :
  steady I I c → I (session w) → I (session (snd (c w))).
Proof.
  intros Hc Hw. specialize (Hc w Hw). by destruct (c w) as [[a|sg] w1].
Qed.

Lemma session_after_frame artifact ui s p :
  no_entries ui → page s = Some p →
  inputs (session_after artifact ui s) = inputs s.
Proof.
  intros Hui Hp. unfold session_after. destruct artifact as [e|m].
  - by rewrite run_script_load_failed.
  - rewrite run_script_loaded, (session_init_page s p Hp).
    destruct (step_of_page p) as [st|] eqn:Hst.
    + erewrite router_dispatch by eauto.
      apply (steady_session (record_is (inputs s))); [by apply page_function_frame|done].
    + by erewrite router_no_page by eauto.
Qed.

Lemma session_after_lands m a b s :
  transition a b → active_ok s → current_step s = Some a →
  session_after (inr m) (press (transition_button a b)) s = with_page (page_of_step b) s.
Proof.
  intros Ht Hs Ha.
  pose proof (current_step_page s a Ha) as Hp.
  unfold session_after. rewrite run_script_loaded, (session_init_page s _ Hp).
  erewrite router_dispatch by eauto using step_of_page_of_step.
  by destruct (transition_lands m a b Ht
    {| session := s; trace := [Load "best_gb_model_tuned.pkl"] |} Hs) as (w' & -> & Hw').
Qed.

Lemma round_trip_sessions m s :
  active_ok s → current_step s = Some Welcome →
  runs (inr m) round_trip s = s ∧
  runs (inr m) (take 3 round_trip) s = with_page 4 s.
Proof.
  intros Hs Ha.
  assert (∀ n s', active_ok s' → 1 <= n <= 4 → active_ok (with_page n s')) as Hact
    by (intros; by apply active_ok_with_page).
  pose proof (session_after_lands m Welcome BasicMetrics s t_start Hs Ha) as H1.
  pose proof (session_after_lands m BasicMetrics KidneyMetrics _ t_next
                (Hact 2 s Hs ltac:(lia)) eq_refl) as H2.
  pose proof (session_after_lands m KidneyMetrics Results _ t_analyze
                (Hact 3 _ (Hact 2 s Hs ltac:(lia)) ltac:(lia)) eq_refl) as H3.
  pose proof (session_after_lands m Results Welcome _ t_home_from_results
                (Hact 4 _ (Hact 3 _ (Hact 2 s Hs ltac:(lia)) ltac:(lia)) ltac:(lia)) eq_refl)
    as H4.
  simpl in H1, H2, H3, H4.
  unfold round_trip, runs. cbn [foldl take].
  rewrite H1, H2, H3. split; [|by destruct s].
  rewrite H4. apply current_step_page in Ha. destruct s; simpl in *. by rewrite Ha.
Qed.

(** ** The trace so far does not matter *)

Lemma trace_local_ret {A} (a : A) : trace_local (ret a).
Proof. intros [s tr]. unfold ret, start. simpl. by rewrite app_nil_r. Qed.

Lemma trace_local_raise {A} e : trace_local (@raise A e).
Proof. intros [s tr]. unfold raise, start. simpl. by rewrite app_nil_r. Qed.

Lemma trace_local_lift {A} (r : exn + A) : trace_local (lift r).
Proof. destruct r; [apply trace_local_raise | apply trace_local_ret]. Qed.

Lemma trace_local_emit ev : trace_local (emit ev).
Proof. by intros [s tr]. Qed.

Lemma trace_local_get_input k : trace_local (get_input k).
Proof.
  intros [s tr]. unfold get_input, start. simpl.
  destruct (inputs s) as [d|]; [destruct (d !! k)|]; simpl; by rewrite app_nil_r.
Qed.

Lemma trace_local_bind {A B} (c : M A) (k : A -> M B) :
  trace_local c → (∀ a, trace_local (k a)) → trace_local (bind c k).
Proof.
  intros Hc Hk w. unfold bind. rewrite (Hc w).
  destruct (c (start (session w))) as [[a|sg] w1]; simpl; [|done].
  rewrite (Hk a {| session := session w1; trace := trace w ++ trace w1 |}). simpl.
  rewrite (Hk a w1). simpl. by rewrite app_assoc.
Qed.

Ltac trace_local_step :=
  lazymatch goal with
  | |- trace_local (bind _ _) => apply trace_local_bind; [|intros ?]
  | |- trace_local (ret _) => apply trace_local_ret
  | |- trace_local (emit _) => apply trace_local_emit
  | |- trace_local (get_input _) => apply trace_local_get_input
  | |- trace_local (lift _) => apply trace_local_lift
  | |- trace_local (raise _) => apply trace_local_raise
  | |- trace_local (match ?x with _ => _ end) => destruct x
  end.

Lemma raw_prediction_trace_local m : trace_local (raw_prediction m).
Proof.
  unfold raw_prediction, build_input_data, model_predict, first_item.
  repeat trace_local_step.
Qed.

(** The results page, run by run: the header, what the inference boundary
    adds to the trace, the label or the error box, and the home button, which
    is looked at whatever happened before. *)
Lemma results_page_exec m ui w :
  results_page m ui w =
  ( (if clicked ui "home_from_results" then Sig Rerun else Ok tt),
    {| session := if clicked ui "home_from_results"
                  then with_page 1 (session w) else session w;
       trace := trace w
                ++ [Render (Header "Your Kidney Health Analysis Results")]
                ++ trace (snd (raw_prediction m (start (session w))))
                ++ map Render (outcome_block (raw_output m (session w)))
                ++ [Render (DivOpen "button-container");
                    Render (Button "🏠 Return to Home" "home_from_results")]
                ++ (if clicked ui "home_from_results" then [] else [Render DivClose]) |} ).
Proof.
  unfold results_page, raw_output.
  unfold bind at 1. unfold st_markdown at 1, emit at 1.
  unfold bind at 1. unfold try_except. unfold bind at 1.
  rewrite (raw_prediction_trace_local m). simpl session. simpl trace.
  destruct (raw_prediction_readonly m (start (session w))) as [Hs Ho].
  destruct (raw_prediction m (start (session w))) as [[v|[e| |]] w1];
    simpl in Hs, Ho; try done; simpl fst; simpl snd; rewrite Hs; unfold outcome_block.
  - unfold show_prediction.
    destruct (py_eq_str v "No_Disease"), (clicked ui "home_from_results") eqn:Hc;
      unfold bind, st_markdown, st_button, st_error, emit, ret, go_to_page, set_page,
        st_rerun, bind, with_page; simpl; rewrite ?Hc; simpl;
      by rewrite <- ?app_assoc.
  - destruct (clicked ui "home_from_results") eqn:Hc;
      unfold bind, st_markdown, st_button, st_error, emit, ret, go_to_page, set_page,
        st_rerun, bind, with_page; simpl; rewrite ?Hc; simpl;
      by rewrite <- ?app_assoc.
Qed.

(** ** The table and its columns *)

Lemma build_input_data_inv w t w' :
  build_input_data w = (Ok t, w') →
  w' = w ∧ ∃ d, inputs (session w) = Some d ∧ column_mapped d t.
Proof.
  unfold build_input_data, bind, get_input, ret.
  destruct (inputs (session w)) as [d|] eqn:Hd; [|discriminate].
  repeat match goal with
         | |- context [match d !! ?k with _ => _ end] =>
             destruct (d !! k) eqn:?; cbv beta iota; rewrite ?Hd; [|discriminate]
         end.
  intros [= <- <-]. split; [done|]. exists d. split; [done|].
  unfold column_mapped, column_mapping. repeat constructor; simpl; eauto.
Qed.

Lemma build_input_data_defined w d :
  inputs (session w) = Some d → record_ok d → ∃ t, build_input_data w = (Ok t, w).
Proof.
  intros Hd (?&?&?&?&?&?&?&?&?&?&?)%record_ok_declared.
  repeat match goal with
         | H : int_between _ _ _ |- _ => destruct H as (? & ? & _)
         | H : float_between _ _ _ |- _ => destruct H as (? & ? & _ & _)
         end.
  unfold build_input_data, bind, get_input, ret. rewrite Hd.
  repeat match goal with
         | H : d !! ?k = Some _ |- context [d !! ?k] =>
             rewrite H; cbv beta iota; rewrite ?Hd
         end.
  by eexists.
Qed.

Lemma column_mapped_columns d t : column_mapped d t → columns t = construction_order.
Proof.
  intros H. change construction_order with (column_mapping.*2). unfold columns.
  induction H as [|kc col kcs t [Hn _] _ IH]; simpl; [done|]. by rewrite Hn, IH.
Qed.

Lemma df_select_columns df names df' :
  df_select df names = inr df' → columns df' = names.
Proof.
  revert df'. induction names as [|n ns IH]; intros df' H; simpl in H.
  - by injection H as <-.
  - destruct (df_column df n) as [cells|]; [|discriminate].
    destruct (df_select df ns) as [e|rest]; [discriminate|].
    injection H as <-. simpl. f_equal. by apply IH.
Qed.

Lemma df_column_Some df n cells : df_column df n = Some cells → n ∈ columns df.
Proof.
  induction df as [|[n' c'] df IH]; simpl; [discriminate|].
  destruct (String.eqb_spec n' n) as [->|Hne].
  - intros _. apply list_elem_of_here.
  - intros H. apply list_elem_of_further. by apply IH.
Qed.

Lemma df_column_None df n : df_column df n = None → n ∉ columns df.
Proof.
  induction df as [|[n' c'] df IH]; simpl; [intros _; apply not_elem_of_nil|].
  destruct (String.eqb_spec n' n) as [->|Hne]; [discriminate|].
  intros H. apply not_elem_of_cons. split; [congruence | by apply IH].
Qed.

(** The cells selected are those of the column of that name. *)
Lemma df_select_cells df names df' :
  df_select df names = inr df' →
  Forall (fun col => df_column df col.1 = Some col.2) df'.
Proof.
  revert df'. induction names as [|n ns IH]; intros df' H; simpl in H.
  - injection H as <-. constructor.
  - destruct (df_column df n) as [cells|] eqn:Hn; [|discriminate].
    destruct (df_select df ns) as [e|rest]; [discriminate|].
    injection H as <-. constructor; [done | by apply IH].
Qed.

Lemma df_select_defined df names :
  names ⊆ columns df → ∃ df', df_select df names = inr df'.
Proof.
  induction names as [|n ns IH]; intros Hsub; simpl; [by eexists|].
  destruct (df_column df n) as [cells|] eqn:Hn.
  - destruct IH as [rest ->]; [|by eexists].
    intros x Hx. apply Hsub. by apply list_elem_of_further.
  - apply df_column_None in Hn. destruct Hn. apply Hsub, list_elem_of_here.
Qed.

Lemma df_select_missing df names e :
  df_select df names = inl e → ∃ n, e = KeyError n ∧ n ∈ names ∧ n ∉ columns df.
Proof.
  induction names as [|n ns IH]; simpl; [discriminate|].
  destruct (df_column df n) as [cells|] eqn:Hn.
  - destruct (df_select df ns) as [e'|rest]; [|discriminate].
    intros [= <-]. destruct IH as (n' & -> & Hin & Hout); [done|].
    exists n'. repeat split; [by apply list_elem_of_further | done].
  - intros [= <-]. exists n. repeat split; [apply list_elem_of_here | by apply df_column_None].
Qed.

Lemma build_input_data_world w : snd (build_input_data w) = w.
Proof.
  unfold build_input_data, bind, get_input, ret.
  destruct (inputs (session w)) as [d|] eqn:Hd; [|done].
  repeat match goal with
         | |- context [match d !! ?k with _ => _ end] =>
             destruct (d !! k) eqn:?; cbv beta iota; rewrite ?Hd; [|done]
         end.
  done.
Qed.

Lemma bind_ok {A B} (c : M A) (k : A -> M B) w a w' :
  c w = (Ok a, w') → bind c k w = k a w'.
Proof. unfold bind. by intros ->. Qed.

Lemma bind_sig {A B} (c : M A) (k : A -> M B) w sg w' :
  c w = (Sig sg, w') → bind c k w = (Sig sg, w').
Proof. unfold bind. by intros ->. Qed.

(** The inference boundary, step by step: the table, the reordering, the one
    call of the model, its first output. *)
Lemma raw_prediction_exec m s :
  match fst (build_input_data (start s)) with
  | Ok t =>
      match reorder_columns m t with
      | inr df =>
          raw_prediction m (start s) =
          (first_output (predict m df), {| session := s; trace := [Predict df] |})
      | inl e => raw_prediction m (start s) = (Sig (Raise e), start s)
      end
  | Sig sg => raw_prediction m (start s) = (Sig sg, start s)
  end.
Proof.
  pose proof (build_input_data_world (start s)) as Hw.
  destruct (build_input_data (start s)) as [[t|sg] w1] eqn:Hb;
    cbn [fst snd] in *; subst w1; unfold raw_prediction.
  - rewrite (bind_ok _ _ _ _ _ Hb).
    destruct (reorder_columns m t) as [e|df]; [done|].
    rewrite (bind_ok _ _ _ df (start s) eq_refl).
    unfold model_predict, first_output, bind, emit, lift. cbn [session trace start app].
    destruct (predict m df) as [e|[|v a]]; reflexivity.
  - by rewrite (bind_sig _ _ _ _ _ Hb).
Qed.

(** ** What the results page shows *)

Lemma py_eq_str_spec v lit : py_eq_str v lit = true ↔ v = VStr lit.
Proof.
  destruct v as [n|x|t]; simpl; try (split; [discriminate | congruence]).
  rewrite String.eqb_eq. split; congruence.
Qed.

Lemma raw_prediction_trace m s :
  trace (snd (raw_prediction m (start s))) = map Predict (model_calls m s).
Proof.
  unfold model_calls. pose proof (raw_prediction_exec m s) as H.
  destruct (fst (build_input_data (start s))) as [t|sg]; [|by rewrite H].
  destruct (reorder_columns m t) as [e|df]; by rewrite H.
Qed.

Lemma labels_shown_app tr1 tr2 :
  labels_shown (tr1 ++ tr2) = labels_shown tr1 ++ labels_shown tr2.
Proof. apply omap_app. Qed.

Lemma rendered_app tr1 tr2 : rendered (tr1 ++ tr2) = rendered tr1 ++ rendered tr2.
Proof. apply omap_app. Qed.

Lemma predict_calls_app tr1 tr2 :
  predict_calls (tr1 ++ tr2) = predict_calls tr1 ++ predict_calls tr2.
Proof. apply omap_app. Qed.

Lemma labels_shown_calls dfs : labels_shown (map Predict dfs) = [].
Proof. by induction dfs. Qed.

Lemma rendered_calls dfs : rendered (map Predict dfs) = [].
Proof. by induction dfs. Qed.

Lemma predict_calls_calls dfs : predict_calls (map Predict dfs) = dfs.
Proof. induction dfs as [|df dfs IH]; [done|]. simpl. by rewrite IH. Qed.

Lemma rendered_map els : rendered (map Render els) = els.
Proof. induction els as [|el els IH]; [done|]. simpl. by rewrite IH. Qed.

Lemma predict_calls_map els : predict_calls (map Render els) = [].
Proof. by induction els. Qed.

(** A run of the script on a session on page 4, with the model loaded. *)
Lemma run_script_results m ui s :
  page s = Some 4 →
  run_script (inr m) ui s =
  results_page m ui {| session := s; trace := [Load "best_gb_model_tuned.pkl"] |}.
Proof.
  intros Hp. rewrite run_script_loaded, (session_init_page s 4 Hp).
  by apply (router_dispatch m ui _ 4 Results).
Qed.

Lemma trace_of_results m ui s :
  page s = Some 4 →
  trace_of (inr m) ui s =
  [Load "best_gb_model_tuned.pkl"; Render (Header "Your Kidney Health Analysis Results")]
  ++ map Predict (model_calls m s)
  ++ map Render (outcome_block (raw_output m s))
  ++ [Render (DivOpen "button-container");
      Render (Button "🏠 Return to Home" "home_from_results")]
  ++ (if clicked ui "home_from_results" then [] else [Render DivClose]).
Proof.
  intros Hp. unfold trace_of. rewrite (run_script_results m ui s Hp), results_page_exec.
  simpl. by rewrite raw_prediction_trace.
Qed.

(** C5. If the inference boundary raises on the results page, the exception
    is caught: the run ends normally (or in the rerun of the home button),
    the page shows its header, the error box with the exception, and the
    Return to Home button, and no label; pressing that button takes the
    session to page 1 with the record as it was. *)
Theorem prediction_error_is_shown m ui s e :
  page s = Some 4 → raw_output m s = Sig (Raise e) →
  fst (run_script (inr m) ui s)
    = (if clicked ui "home_from_results" then Sig Rerun else Ok tt) ∧
  rendered (trace_of (inr m) ui s)
    = [ Header "Your Kidney Health Analysis Results";
        ErrorBox "Prediction error: " e;
        DivOpen "button-container";
        Button "🏠 Return to Home" "home_from_results" ]
      ++ (if clicked ui "home_from_results" then [] else [DivClose]) ∧
  labels_shown (trace_of (inr m) ui s) = [] ∧
  session_after (inr m) ui s
    = (if clicked ui "home_from_results" then with_page 1 s else s).
Proof.
  intros Hp He. repeat split.
  - by rewrite (run_script_results m ui s Hp), results_page_exec.
  - rewrite (trace_of_results m ui s Hp), He.
    rewrite !rendered_app, rendered_calls. simpl.
    by destruct (clicked ui "home_from_results").
  - rewrite (trace_of_results m ui s Hp), He.
    rewrite !labels_shown_app, labels_shown_calls. simpl.
    by destruct (clicked ui "home_from_results").
  - unfold session_after. by rewrite (run_script_results m ui s Hp), results_page_exec.
Qed.

(** The theorem for a model whose [predict] raises, with the home button
    pressed. *)
Lemma prediction_error_is_shown_witness :
  labels_shown (trace_of (inr failing_model) (press "home_from_results") (default_session 4))
    = [] ∧
  session_after (inr failing_model) (press "home_from_results") (default_session 4)
    = default_session 1.
Proof.
  pose proof (prediction_error_is_shown failing_model (press "home_from_results")
                (default_session 4) _ eq_refl eq_refl) as (_ & _ & Hl & Hs).
  split; [exact Hl | exact Hs].
Defined.

(** C6. When loading the model artifact fails, the run reports the error in
    an error box and stops there: nothing else is drawn, no page function
    runs, the session is left as it was, and the file is read once. *)
Theorem load_failure_stops_startup e ui s :
  fst (run_script (inl e) ui s) = Sig Stop ∧
  rendered (trace_of (inl e) ui s) = [ErrorBox "Error loading model: " e] ∧
  load_attempts (trace_of (inl e) ui s) = ["best_gb_model_tuned.pkl"] ∧
  predict_calls (trace_of (inl e) ui s) = [] ∧
  session_after (inl e) ui s = s.
Proof.
  unfold trace_of, session_after. rewrite run_script_load_failed. by repeat split.
Qed.

(** ** The calls of the model *)

Lemma model_calls_inv m s df :
  df ∈ model_calls m s →
  ∃ t, build_input_data (start s) = (Ok t, start s) ∧
       reorder_columns m t = inr df ∧
       model_calls m s = [df] ∧
       raw_output m s = first_output (predict m df).
Proof.
  unfold model_calls, raw_output. pose proof (raw_prediction_exec m s) as H.
  pose proof (build_input_data_world (start s)) as Hw.
  destruct (build_input_data (start s)) as [[t|sg] w1]; cbn [fst snd] in *; subst w1.
  - destruct (reorder_columns m t) as [e|df'] eqn:Hr; rewrite H; simpl.
    + by intros ?%not_elem_of_nil.
    + intros ->%list_elem_of_singleton. by eexists.
  - rewrite H. simpl. by intros ?%not_elem_of_nil.
Qed.

Lemma model_calls_defined m s d :
  inputs s = Some d → record_ok d →
  ∃ t, build_input_data (start s) = (Ok t, start s) ∧ column_mapped d t ∧
       match reorder_columns m t with
       | inr df => model_calls m s = [df] ∧ raw_output m s = first_output (predict m df)
       | inl e => model_calls m s = [] ∧ raw_output m s = Sig (Raise e)
       end.
Proof.
  intros Hd Hrec. destruct (build_input_data_defined (start s) d Hd Hrec) as [t Ht].
  exists t. split; [done|]. split.
  - destruct (build_input_data_inv _ _ _ Ht) as (_ & d' & Hd' & Hmap).
    simpl in Hd'. congruence.
  - unfold model_calls, raw_output. pose proof (raw_prediction_exec m s) as H.
    rewrite Ht in H. simpl in H.
    destruct (reorder_columns m t) as [e|df]; by rewrite H.
Qed.

Lemma predict_calls_results m ui s :
  page s = Some 4 → predict_calls (trace_of (inr m) ui s) = model_calls m s.
Proof.
  intros Hp. rewrite (trace_of_results m ui s Hp).
  rewrite !predict_calls_app, predict_calls_calls, predict_calls_map. simpl.
  destruct (clicked ui "home_from_results"); simpl; by rewrite app_nil_r.
Qed.

(** C4. When the model has the attribute [feature_names_in_], any table it
    is called with has exactly those names as its columns, in that order, each
    with the cells of the column of that name in the table as built; when it
    has no such attribute, the table it is called with is the table as built.
    With a well-formed record and names that are all columns of the table, the
    model is called, once; a name that is no column means [KeyError] and no
    call.  On the results page these are the calls of the run. *)
Theorem columns_follow_model_order m s :
  (∀ names df,
     feature_names_in_ m = Some names → df ∈ model_calls m s →
     columns df = names ∧
     ∃ t, build_input_data (start s) = (Ok t, start s) ∧
          Forall (fun col => df_column t col.1 = Some col.2) df) ∧
  (∀ df,
     feature_names_in_ m = None → df ∈ model_calls m s →
     build_input_data (start s) = (Ok df, start s)) ∧
  (∀ names d,
     feature_names_in_ m = Some names → inputs s = Some d → record_ok d →
     (names ⊆ construction_order → ∃ df, model_calls m s = [df]) ∧
     (¬ names ⊆ construction_order →
        model_calls m s = [] ∧ ∃ n, raw_output m s = Sig (Raise (KeyError n)))) ∧
  (∀ ui, page s = Some 4 → predict_calls (trace_of (inr m) ui s) = model_calls m s).
Proof.
  split; [|split; [|split]].
  - intros names df Hn (t & Ht & Hr & _)%model_calls_inv.
    unfold reorder_columns in Hr. rewrite Hn in Hr.
    split; [by apply df_select_columns in Hr|].
    exists t. split; [done | by apply df_select_cells in Hr].
  - intros df Hn (t & Ht & Hr & _)%model_calls_inv.
    unfold reorder_columns in Hr. rewrite Hn in Hr. congruence.
  - intros names d Hn Hd Hrec.
    destruct (model_calls_defined m s d Hd Hrec) as (t & Ht & Hmap & Hcall).
    apply column_mapped_columns in Hmap.
    unfold reorder_columns in Hcall. rewrite Hn in Hcall. split; intros Hsub.
    + destruct (df_select_defined t names) as [df Hdf]; [by rewrite Hmap|].
      rewrite Hdf in Hcall. exists df. apply Hcall.
    + destruct (df_select t names) as [e|df] eqn:Hsel.
      * apply df_select_missing in Hsel as (n & -> & _). destruct Hcall. eauto.
      * destruct Hsub. pose proof (df_select_columns _ _ _ Hsel) as Hc.
        apply df_select_cells in Hsel.
        rewrite <- Hc, <- Hmap. intros n Hin. unfold columns in Hin.
        apply list_elem_of_fmap in Hin as ([n' cells] & -> & Hin).
        rewrite Forall_forall in Hsel. by apply df_column_Some with cells, Hsel.
  - intros ui. apply predict_calls_results.
Qed.

(** The theorem for a model that names the eleven columns in an order of its
    own, on the default record. *)
Lemma columns_follow_model_order_witness :
  columns (hd [] (model_calls ordered_model (default_session 4)))
  = [ "Serum creatinine (mg/dl)"; "Age of the patient";
      "Interleukin-6 (IL-6) level"; "Blood urea (mg/dl)";
      "Random blood glucose level (mg/dl)"; "Potassium level (mEq/L)";
      "White blood cell count (cells/cumm)";
      "Estimated Glomerular Filtration Rate (eGFR)";
      "Urine protein-to-creatinine ratio"; "Urine output (ml/day)";
      "Parathyroid hormone (PTH) level" ].
Proof.
  refine (proj1 (proj1 (columns_follow_model_order ordered_model (default_session 4))
                  _ _ eq_refl _)).
  vm_compute. apply list_elem_of_here.
Defined.

(** ** The default record *)

Lemma welcome_page_frame ui x : steady (record_is x) (record_is x) (welcome_page ui).
Proof. unfold welcome_page. steady_frame. Qed.

Lemma first_run_record m ui :
  inputs (session_after (inr m) ui new_session) = Some default_inputs.
Proof.
  unfold session_after. rewrite run_script_loaded.
  rewrite (router_dispatch m ui _ 1 Welcome) by done.
  apply (steady_session (record_is (Some default_inputs)));
    [apply welcome_page_frame | done].
Qed.

(** C3. The record is created by [init_session] in a new session, with the
    documented defaults, and is left alone by [init_session] in a session that
    has a page; after the first run of a session the record is the default
    record whatever the browser reported.  From the default record
    [build_input_data] makes a single-row table of exactly eleven named
    columns, each field under its column name, and this is the table the
    model is called with (as it is, when the model names no feature order). *)
Theorem default_record_table :
  (∀ tr, init_session {| session := new_session; trace := tr |}
         = (Ok tt, {| session := default_session 1; trace := tr |})) ∧
  (∀ w p, page (session w) = Some p → init_session w = (Ok tt, w)) ∧
  (∀ m ui, inputs (session_after (inr m) ui new_session) = Some default_inputs) ∧
  (size default_inputs = 11%nat ∧
   default_inputs !! "age" = Some (VInt 40) ∧
   default_inputs !! "glucose" = Some (VInt 100) ∧
   default_inputs !! "serum_creatinine" = Some (VFloat 1.00) ∧
   default_inputs !! "potassium" = Some (VFloat 4.00) ∧
   default_inputs !! "wbc" = Some (VInt 7000) ∧
   default_inputs !! "urine_output" = Some (VInt 1500) ∧
   default_inputs !! "blood_urea" = Some (VFloat 40.00) ∧
   default_inputs !! "upcr" = Some (VFloat 0.50) ∧
   default_inputs !! "egfr" = Some (VFloat 90.00) ∧
   default_inputs !! "pth" = Some (VFloat 40.00) ∧
   default_inputs !! "il6" = Some (VFloat 5.00)) ∧
  (∀ p, build_input_data (start (default_session p))
        = (Ok default_table, start (default_session p))) ∧
  (length default_table = 11%nat ∧
   NoDup (columns default_table) ∧
   Forall (fun col => length col.2 = 1%nat) default_table ∧
   column_mapped default_inputs default_table) ∧
  (∀ m ui, feature_names_in_ m = None →
     predict_calls (trace_of (inr m) ui (default_session 4)) = [default_table]).
Proof.
  split; [done|]. split.
  { intros w p Hp. unfold init_session. by rewrite Hp. }
  split; [apply first_run_record|]. split; [by vm_compute|].
  split; [done|]. split.
  { split; [done|]. split; [compute_done|]. split; [by repeat constructor|].
    destruct (build_input_data_inv (start (default_session 4)) default_table
                (start (default_session 4)) eq_refl) as (_ & d & [= <-] & Hmap).
    exact Hmap. }
  intros m ui Hn. rewrite predict_calls_results by done.
  destruct (model_calls_defined m (default_session 4) default_inputs eq_refl
              record_ok_default) as (t & [= <-] & _ & Hcall).
  unfold reorder_columns in Hcall. rewrite Hn in Hcall. apply Hcall.
Qed.

(** The theorem for the sample model, which names no feature order. *)
Lemma default_record_table_witness :
  predict_calls (trace_of (inr sample_model) quiet (default_session 4)) = [default_table].
Proof.
  apply (proj2 (proj2 (proj2 (proj2 (proj2 (proj2 default_record_table)))))
           sample_model quiet eq_refl).
Defined.

(** ** The order of construction and the order of collection *)

(** C10. When the model has no [feature_names_in_], a run on the results
    page calls the model with the eleven columns in the fixed order of
    construction: with a well-formed record the run makes exactly one call,
    with the column-mapped table, and any table a run calls the model with
    has these columns in this order.  That order is not the order in which
    the two input pages collect the fields (the pages are exactly the input
    statements of [basic_controls] and [kidney_controls]).  The column of
    [il6] is named without the unit that the label of its control carries. *)
Theorem construction_order_is_fixed :
  (∀ m ui s d,
     feature_names_in_ m = None → page s = Some 4 → inputs s = Some d → record_ok d →
     ∃ df, predict_calls (trace_of (inr m) ui s) = [df] ∧
           column_mapped d df ∧
           columns df =
             [ "Age of the patient";
               "Random blood glucose level (mg/dl)";
               "Blood urea (mg/dl)";
               "Serum creatinine (mg/dl)";
               "Potassium level (mEq/L)";
               "White blood cell count (cells/cumm)";
               "Estimated Glomerular Filtration Rate (eGFR)";
               "Urine protein-to-creatinine ratio";
               "Urine output (ml/day)";
               "Parathyroid hormone (PTH) level";
               "Interleukin-6 (IL-6) level" ]) ∧
  (∀ m ui s df,
     feature_names_in_ m = None → page s = Some 4 →
     df ∈ predict_calls (trace_of (inr m) ui s) →
     columns df =
       [ "Age of the patient";
         "Random blood glucose level (mg/dl)";
         "Blood urea (mg/dl)";
         "Serum creatinine (mg/dl)";
         "Potassium level (mEq/L)";
         "White blood cell count (cells/cumm)";
         "Estimated Glomerular Filtration Rate (eGFR)";
         "Urine protein-to-creatinine ratio";
         "Urine output (ml/day)";
         "Parathyroid hormone (PTH) level";
         "Interleukin-6 (IL-6) level" ]) ∧
  (∀ m s df,
     feature_names_in_ m = None → df ∈ model_calls m s →
     columns df =
       [ "Age of the patient";
         "Random blood glucose level (mg/dl)";
         "Blood urea (mg/dl)";
         "Serum creatinine (mg/dl)";
         "Potassium level (mEq/L)";
         "White blood cell count (cells/cumm)";
         "Estimated Glomerular Filtration Rate (eGFR)";
         "Urine protein-to-creatinine ratio";
         "Urine output (ml/day)";
         "Parathyroid hormone (PTH) level";
         "Interleukin-6 (IL-6) level" ]) ∧
  (∀ m s d,
     feature_names_in_ m = None → inputs s = Some d → record_ok d →
     ∃ df, model_calls m s = [df] ∧ column_mapped d df) ∧
  (∀ ui, ∃ buttons,
     basic_metrics_page ui =
     bind (st_markdown (Header "Step 1: Basic Health Metrics"))
          (fun _ => collect ui basic_controls buttons)) ∧
  (∀ ui, ∃ buttons,
     kidney_metrics_page ui =
     bind (st_markdown (Header "Step 2: Kidney Function Metrics"))
          (fun _ => collect ui kidney_controls buttons)) ∧
  map fc_key (basic_controls ++ kidney_controls) =
    [ "age"; "glucose"; "serum_creatinine"; "potassium"; "wbc";
      "urine_output"; "blood_urea"; "upcr"; "egfr"; "pth"; "il6" ] ∧
  column_mapping.*1 =
    [ "age"; "glucose"; "blood_urea"; "serum_creatinine"; "potassium"; "wbc";
      "egfr"; "upcr"; "urine_output"; "pth"; "il6" ] ∧
  column_mapping.*1 ≠ map fc_key (basic_controls ++ kidney_controls) ∧
  column_mapping !! 10%nat = Some ("il6", "Interleukin-6 (IL-6) level") ∧
  map (fun fc => (fc_key fc, fc_label fc)) kidney_controls !! 5%nat
    = Some ("il6", "Interleukin-6 (IL-6) level (pg/ml)") ∧
  "Interleukin-6 (IL-6) level (pg/ml)" = "Interleukin-6 (IL-6) level" +:+ " (pg/ml)".
Proof.
  assert (∀ m s df,
            feature_names_in_ m = None → df ∈ model_calls m s →
            columns df = construction_order) as Hcols.
  { intros m s df Hn (t & Ht & Hr & _)%model_calls_inv.
    unfold reorder_columns in Hr. rewrite Hn in Hr. injection Hr as <-.
    destruct (build_input_data_inv _ _ _ Ht) as (_ & d & _ & Hmap).
    by apply column_mapped_columns in Hmap. }
  assert (∀ m s d,
            feature_names_in_ m = None → inputs s = Some d → record_ok d →
            ∃ df, model_calls m s = [df] ∧ column_mapped d df) as Hcall.
  { intros m s d Hn Hd Hrec.
    destruct (model_calls_defined m s d Hd Hrec) as (t & Ht & Hmap & Hc).
    unfold reorder_columns in Hc. rewrite Hn in Hc. exists t. by split; [apply Hc|]. }
  split.
  { intros m ui s d Hn Hp Hd Hrec. rewrite (predict_calls_results m ui s Hp).
    destruct (Hcall m s d Hn Hd Hrec) as (df & Hdf & Hmap).
    exists df. split; [done|]. split; [done|].
    apply (Hcols m s df Hn). rewrite Hdf. apply list_elem_of_here. }
  split.
  { intros m ui s df Hn Hp. rewrite (predict_calls_results m ui s Hp). by apply Hcols. }
  split; [exact Hcols|]. split; [exact Hcall|].
  split; [intros ui; by eexists|]. split; [intros ui; by eexists|].
  repeat split; done.
Qed.

(** The theorem for a run on the results page with the default record and
    the sample model, which names no feature order. *)
Lemma construction_order_is_fixed_witness :
  ∃ df, predict_calls (trace_of (inr sample_model) quiet (default_session 4)) = [df] ∧
        column_mapped default_inputs df ∧
        columns df = construction_order.
Proof.
  exact (proj1 construction_order_is_fixed sample_model quiet (default_session 4)
           default_inputs eq_refl eq_refl eq_refl record_ok_default).
Defined.

(** ** Navigation and the record *)

(** C7. Navigation never alters the record.  [go_to_page] changes the page
    and nothing else; the results page leaves the record as it found it,
    whatever the model does and whatever the browser reports; a run in which
    the browser reports no entry in a control (a press of a button, a rerun)
    leaves the record of a session as it was; and once round the wizard from
    Welcome (start, next, analyze, home) passes through Results and comes back
    to Welcome with the record unchanged. *)
Theorem navigation_preserves_record :
  (∀ n w, go_to_page n w =
          (Sig Rerun, {| session := {| page := Some n; inputs := inputs (session w) |};
                         trace := trace w |})) ∧
  (∀ m ui w, inputs (session (snd (results_page m ui w))) = inputs (session w)) ∧
  (∀ artifact ui s p,
     no_entries ui → page s = Some p →
     inputs (session_after artifact ui s) = inputs s) ∧
  (∀ m s,
     active_ok s → current_step s = Some Welcome →
     current_step (runs (inr m) (take 3 round_trip) s) = Some Results ∧
     current_step (runs (inr m) round_trip s) = Some Welcome ∧
     inputs (runs (inr m) round_trip s) = inputs s).
Proof.
  split; [done|]. split; [|split].
  - intros m ui w.
    apply (steady_session (record_is (inputs (session w)))); [apply results_page_frame|done].
  - intros artifact ui s p. apply session_after_frame.
  - intros m s Hs Ha. destruct (round_trip_sessions m s Hs Ha) as [-> ->]. done.
Qed.

(** The theorem for the session as its first run leaves it. *)
Lemma navigation_preserves_record_witness :
  current_step (runs (inr sample_model) (take 3 round_trip) (default_session 1))
    = Some Results ∧
  current_step (runs (inr sample_model) round_trip (default_session 1)) = Some Welcome ∧
  inputs (runs (inr sample_model) round_trip (default_session 1)) = Some default_inputs.
Proof.
  apply (proj2 (proj2 (proj2 navigation_preserves_record)) sample_model (default_session 1)).
  - split; [unfold page_ok; lia | apply record_ok_default].
  - reflexivity.
Defined.

(** * Further properties of the script *)

(** ** The input statements of a page, run in a row *)

Lemma control_value_defined ui lbl lo hi cur :
  within lo hi cur = true → ∃ v, control_value ui lbl lo hi cur = inr v.
Proof. destruct lo, hi, cur; try discriminate; intros _; by eexists. Qed.

Lemma input_statement_exec ui fc w d cur v :
  inputs (session w) = Some d → d !! fc_key fc = Some cur →
  control_value ui (fc_label fc) (fc_lo fc) (fc_hi fc) cur = inr v →
  input_statement (widget_of ui (fc_kind fc))
    (fc_key fc) (fc_label fc) (fc_lo fc) (fc_hi fc) w
  = (Ok tt, {| session := with_input (fc_key fc) v d (session w);
               trace := trace w ++ [Render (control_element fc)] |}).
Proof.
  intros Hd Hk Hv. unfold input_statement, bind, get_input. rewrite Hd, Hk.
  unfold control_element.
  destruct (fc_kind fc); simpl; unfold st_slider, st_number_input, bind, lift;
    rewrite Hv; unfold ret, emit, set_input; simpl; by rewrite Hd.
Qed.

Lemma controls_ok_insert d l k v :
  k ∉ map fc_key l → controls_ok d l → controls_ok (<[k := v]> d) l.
Proof.
  unfold controls_ok. intros Hk H. induction H as [|fc l (cur & Hc & Hw) _ IH]; [constructor|].
  apply not_elem_of_cons in Hk as [Hne Hk]. constructor; [|by apply IH].
  exists cur. by rewrite lookup_insert_ne.
Qed.

Lemma collect_exec ui l rest w d :
  inputs (session w) = Some d → NoDup (map fc_key l) → controls_ok d l →
  collect ui l rest w =
  rest {| session := {| page := page (session w);
                        inputs := Some (apply_controls ui l d) |};
          trace := trace w ++ map (fun fc => Render (control_element fc)) l |}.
Proof.
  revert w d. induction l as [|fc l IH]; intros w d Hd Hnd Hok.
  - simpl. rewrite app_nil_r. f_equal. destruct w as [[p i] tr]. simpl in *. by rewrite Hd.
  - apply NoDup_cons in Hnd as [Hfresh Hnd].
    apply Forall_cons in Hok as [(cur & Hcur & Hwithin) Hok].
    destruct (control_value_defined ui (fc_label fc) _ _ _ Hwithin) as [v Hv].
    change (collect ui (fc :: l) rest)
      with (bind (input_statement (widget_of ui (fc_kind fc))
                    (fc_key fc) (fc_label fc) (fc_lo fc) (fc_hi fc))
                 (fun _ => collect ui l rest)).
    rewrite (bind_ok _ _ _ _ _ (input_statement_exec ui fc w d cur v Hd Hcur Hv)).
    rewrite (IH _ (<[fc_key fc := v]> d)); [|done|done|by apply controls_ok_insert].
    assert (apply_control ui fc d = <[fc_key fc := v]> d) as Happ
      by (unfold apply_control; by rewrite Hcur, Hv).
    change (apply_controls ui (fc :: l) d)
      with (apply_controls ui l (apply_control ui fc d)).
    rewrite Happ. cbn [session trace page with_input map]. by rewrite <- app_assoc.
Qed.

Lemma controls_ok_record d l :
  record_ok d →
  Forall (fun fc => (fc_key fc, (fc_lo fc, fc_hi fc)) ∈ field_table) l →
  controls_ok d l.
Proof.
  intros Hd Hl. unfold controls_ok. eapply Forall_impl; [exact Hl|].
  intros fc Hin. by apply record_ok_field.
Qed.

Lemma page_controls_rows p :
  Forall (fun fc => (fc_key fc, (fc_lo fc, fc_hi fc)) ∈ field_table) (page_controls p).
Proof.
  unfold page_controls. destruct (p =? 2); [|destruct (p =? 3)];
    unfold basic_controls, kidney_controls; repeat constructor.
Qed.

Lemma page_controls_keys p : NoDup (map fc_key (page_controls p)).
Proof.
  unfold page_controls. destruct (p =? 2); [|destruct (p =? 3)]; compute_done.
Qed.

(** What the controls of a list leave in the record. *)
Lemma apply_controls_other ui l d k :
  k ∉ map fc_key l → apply_controls ui l d !! k = d !! k.
Proof.
  revert d. induction l as [|fc l IH]; intros d Hk; [done|].
  apply not_elem_of_cons in Hk as [Hne Hk]. simpl. rewrite IH by done.
  unfold apply_control. destruct (d !! fc_key fc) as [cur|]; [|done].
  destruct (control_value _ _ _ _ _); [done|]. by rewrite lookup_insert_ne.
Qed.

Lemma apply_controls_field ui l d fc cur v :
  NoDup (map fc_key l) → fc ∈ l → d !! fc_key fc = Some cur →
  control_value ui (fc_label fc) (fc_lo fc) (fc_hi fc) cur = inr v →
  apply_controls ui l d !! fc_key fc = Some v.
Proof.
  revert d. induction l as [|fc' l IH]; intros d Hnd Hin Hcur Hv.
  - by apply not_elem_of_nil in Hin.
  - apply NoDup_cons in Hnd as [Hfresh Hnd]. simpl.
    apply elem_of_cons in Hin as [->|Hin].
    + rewrite apply_controls_other by done.
      unfold apply_control. rewrite Hcur, Hv. apply lookup_insert_eq.
    + apply IH; try done.
      assert (fc_key fc' ≠ fc_key fc) as Hne.
      { intros Heq. apply Hfresh. rewrite Heq. by apply list_elem_of_fmap_2. }
      unfold apply_control. destruct (d !! fc_key fc') as [cur'|]; [|done].
      destruct (control_value ui (fc_label fc') (fc_lo fc') (fc_hi fc') cur'); [done|].
      by rewrite lookup_insert_ne.
Qed.

(** ** The pages, run by run *)

Lemma basic_metrics_page_collect ui :
  basic_metrics_page ui =
  bind (st_markdown (Header "Step 1: Basic Health Metrics"))
       (fun _ => collect ui basic_controls (basic_buttons ui)).
Proof. reflexivity. Qed.

Lemma kidney_metrics_page_collect ui :
  kidney_metrics_page ui =
  bind (st_markdown (Header "Step 2: Kidney Function Metrics"))
       (fun _ => collect ui kidney_controls (kidney_buttons ui)).
Proof. reflexivity. Qed.

Lemma welcome_page_exec ui w :
  welcome_page ui w =
  if clicked ui "start_assessment" then
    (Sig Rerun,
     {| session := with_page 2 (session w);
        trace := trace w ++ [ Render (Header "Welcome to your kidney health analysis portal");
                              Render (Block "Protect Your Kidney Health");
                              Render (Button "Start Assessment" "start_assessment") ] |})
  else
    (Ok tt,
     {| session := session w;
        trace := trace w ++ [ Render (Header "Welcome to your kidney health analysis portal");
                              Render (Block "Protect Your Kidney Health");
                              Render (Button "Start Assessment" "start_assessment");
                              Render (Block "About This Assessment") ] |}).
Proof.
  unfold welcome_page, bind, st_markdown, st_button, emit, ret, bind. simpl.
  destruct (clicked ui "start_assessment"); simpl; by rewrite <- !app_assoc.
Qed.

Lemma basic_metrics_page_exec ui w d :
  inputs (session w) = Some d → record_ok d →
  basic_metrics_page ui w =
  if clicked ui "home_from_basic" then
    (Sig Rerun,
     {| session := {| page := Some 1; inputs := Some (apply_controls ui basic_controls d) |};
        trace := trace w
                 ++ Render (Header "Step 1: Basic Health Metrics")
                    :: map (fun fc => Render (control_element fc)) basic_controls
                 ++ [Render (Button "🏠 Return to Home" "home_from_basic")] |})
  else if clicked ui "next_to_kidney" then
    (Sig Rerun,
     {| session := {| page := Some 3; inputs := Some (apply_controls ui basic_controls d) |};
        trace := trace w
                 ++ Render (Header "Step 1: Basic Health Metrics")
                    :: map (fun fc => Render (control_element fc)) basic_controls
                 ++ [Render (Button "🏠 Return to Home" "home_from_basic");
                     Render (Button "Next →" "next_to_kidney")] |})
  else
    (Ok tt,
     {| session := {| page := page (session w);
                      inputs := Some (apply_controls ui basic_controls d) |};
        trace := trace w
                 ++ Render (Header "Step 1: Basic Health Metrics")
                    :: map (fun fc => Render (control_element fc)) basic_controls
                 ++ [Render (Button "🏠 Return to Home" "home_from_basic");
                     Render (Button "Next →" "next_to_kidney")] |}).
Proof.
  intros Hd Hrec. rewrite basic_metrics_page_collect.
  rewrite (bind_ok (st_markdown (Header "Step 1: Basic Health Metrics")) _ w tt
             {| session := session w;
                trace := trace w ++ [Render (Header "Step 1: Basic Health Metrics")] |}
             eq_refl).
  rewrite (collect_exec ui basic_controls (basic_buttons ui)
             {| session := session w;
                trace := trace w ++ [Render (Header "Step 1: Basic Health Metrics")] |}
             d Hd (page_controls_keys 2)
             (controls_ok_record d _ Hrec (page_controls_rows 2))).
  unfold basic_buttons, bind, st_button, emit, ret, go_to_page, set_page, st_rerun, bind.
  cbn [session trace page inputs fst snd].
  destruct (clicked ui "home_from_basic"), (clicked ui "next_to_kidney");
    cbn [session trace page inputs]; by rewrite <- ?app_assoc.
Qed.

Lemma kidney_metrics_page_exec ui w d :
  inputs (session w) = Some d → record_ok d →
  kidney_metrics_page ui w =
  if clicked ui "analyze" then
    (Sig Rerun,
     {| session := {| page := Some 4; inputs := Some (apply_controls ui kidney_controls d) |};
        trace := trace w
                 ++ Render (Header "Step 2: Kidney Function Metrics")
                    :: map (fun fc => Render (control_element fc)) kidney_controls
                 ++ [Render (DivOpen "analyze-button");
                     Render (Button "Analyze Kidney Health" "analyze")] |})
  else if clicked ui "prev_to_basic" then
    (Sig Rerun,
     {| session := {| page := Some 2; inputs := Some (apply_controls ui kidney_controls d) |};
        trace := trace w
                 ++ Render (Header "Step 2: Kidney Function Metrics")
                    :: map (fun fc => Render (control_element fc)) kidney_controls
                 ++ [Render (DivOpen "analyze-button");
                     Render (Button "Analyze Kidney Health" "analyze");
                     Render DivClose;
                     Render (Button "← Previous" "prev_to_basic")] |})
  else if clicked ui "home_from_kidney" then
    (Sig Rerun,
     {| session := {| page := Some 1; inputs := Some (apply_controls ui kidney_controls d) |};
        trace := trace w
                 ++ Render (Header "Step 2: Kidney Function Metrics")
                    :: map (fun fc => Render (control_element fc)) kidney_controls
                 ++ [Render (DivOpen "analyze-button");
                     Render (Button "Analyze Kidney Health" "analyze");
                     Render DivClose;
                     Render (Button "← Previous" "prev_to_basic");
                     Render (Button "🏠 Return to Home" "home_from_kidney")] |})
  else
    (Ok tt,
     {| session := {| page := page (session w);
                      inputs := Some (apply_controls ui kidney_controls d) |};
        trace := trace w
                 ++ Render (Header "Step 2: Kidney Function Metrics")
                    :: map (fun fc => Render (control_element fc)) kidney_controls
                 ++ [Render (DivOpen "analyze-button");
                     Render (Button "Analyze Kidney Health" "analyze");
                     Render DivClose;
                     Render (Button "← Previous" "prev_to_basic");
                     Render (Button "🏠 Return to Home" "home_from_kidney")] |}).
Proof.
  intros Hd Hrec. rewrite kidney_metrics_page_collect.
  rewrite (bind_ok (st_markdown (Header "Step 2: Kidney Function Metrics")) _ w tt
             {| session := session w;
                trace := trace w ++ [Render (Header "Step 2: Kidney Function Metrics")] |}
             eq_refl).
  rewrite (collect_exec ui kidney_controls (kidney_buttons ui)
             {| session := session w;
                trace := trace w ++ [Render (Header "Step 2: Kidney Function Metrics")] |}
             d Hd (page_controls_keys 3)
             (controls_ok_record d _ Hrec (page_controls_rows 3))).
  unfold kidney_buttons, bind, st_markdown, st_button, emit, ret, go_to_page, set_page,
    st_rerun, bind.
  cbn [session trace page inputs fst snd].
  destruct (clicked ui "analyze"), (clicked ui "prev_to_basic"),
    (clicked ui "home_from_kidney");
    cbn [session trace page inputs]; by rewrite <- ?app_assoc.
Qed.

(** ** A run on a well-formed session *)

Lemma apply_controls_no_entries ui l d :
  no_entries ui → controls_ok d l → apply_controls ui l d = d.
Proof.
  intros Hui Hok. induction Hok as [|fc l (cur & Hcur & Hw) _ IH]; [done|].
  simpl. unfold apply_control. rewrite Hcur.
  rewrite (control_value_no_entry ui _ _ _ _ Hui Hw), (insert_id d _ _ Hcur). exact IH.
Qed.

(** The whole run, for a session with a page among the four and a record in
    range: where it ends and what it leaves. *)
Lemma run_script_active m ui s d p :
  active_ok s → inputs s = Some d → page s = Some p →
  fst (run_script (inr m) ui s) = (if next_page ui p =? p then Ok tt else Sig Rerun) ∧
  session_after (inr m) ui s
  = {| page := Some (next_page ui p);
       inputs := Some (apply_controls ui (page_controls p) d) |}.
Proof.
  intros Hs Hd Hp. unfold active_ok in Hs. rewrite Hp, Hd in Hs. destruct Hs as [Hpok Hrec].
  destruct s as [pg inp]. simpl in Hd, Hp. subst pg inp.
  unfold session_after.
  rewrite run_script_loaded, (session_init_page {| page := Some p; inputs := Some d |} p eq_refl).
  unfold page_ok in Hpok.
  set (w0 := {| session := {| page := Some p; inputs := Some d |};
                trace := [Load "best_gb_model_tuned.pkl"] |}).
  assert (p = 1 ∨ p = 2 ∨ p = 3 ∨ p = 4) as [-> | [-> | [-> | ->]]] by lia.
  - rewrite (router_dispatch m ui w0 1 Welcome eq_refl eq_refl). simpl page_function.
    rewrite welcome_page_exec. unfold next_page. simpl.
    by destruct (clicked ui "start_assessment").
  - rewrite (router_dispatch m ui w0 2 BasicMetrics eq_refl eq_refl). simpl page_function.
    rewrite (basic_metrics_page_exec ui w0 d eq_refl Hrec). unfold next_page. simpl.
    by destruct (clicked ui "home_from_basic"), (clicked ui "next_to_kidney").
  - rewrite (router_dispatch m ui w0 3 KidneyMetrics eq_refl eq_refl). simpl page_function.
    rewrite (kidney_metrics_page_exec ui w0 d eq_refl Hrec). unfold next_page. simpl.
    by destruct (clicked ui "analyze"), (clicked ui "prev_to_basic"),
         (clicked ui "home_from_kidney").
  - rewrite (router_dispatch m ui w0 4 Results eq_refl eq_refl). simpl page_function.
    rewrite results_page_exec. unfold next_page. simpl.
    by destruct (clicked ui "home_from_results").
Qed.

Lemma active_ok_inv s :
  active_ok s → ∃ p d, page s = Some p ∧ inputs s = Some d ∧ page_ok p ∧ record_ok d.
Proof.
  unfold active_ok. destruct (page s) as [p|]; [|done]. destruct (inputs s) as [d|]; [|done].
  intros [? ?]. by exists p, d.
Qed.

Lemma page_controls_field d p fc :
  record_ok d → fc ∈ page_controls p →
  ∃ cur, d !! fc_key fc = Some cur ∧ within (fc_lo fc) (fc_hi fc) cur = true.
Proof.
  intros Hrec Hin. apply record_ok_field; [done|].
  pose proof (page_controls_rows p) as Hrows. rewrite Forall_forall in Hrows. by apply Hrows.
Qed.

Lemma default_session_ok p : 1 <= p <= 4 → active_ok (default_session p).
Proof. intros Hp. split; [exact Hp | apply record_ok_default]. Qed.

(** X1. On a well-formed session with the model loaded, a run stores in each
    field of the page it shows what the control of that field returned for the
    value the field held, whatever buttons were pressed in the same run: an
    integer entry is stored clamped to the bounds of its control, and a field
    whose control got no entry keeps its value. *)
Theorem entries_are_stored m ui s d p :
  active_ok s → inputs s = Some d → page s = Some p →
  ∃ d', inputs (session_after (inr m) ui s) = Some d' ∧
    (∀ fc cur, fc ∈ page_controls p → d !! fc_key fc = Some cur →
       ∃ v, control_value ui (fc_label fc) (fc_lo fc) (fc_hi fc) cur = inr v ∧
            d' !! fc_key fc = Some v) ∧
    (∀ fc lo hi e, fc ∈ page_controls p →
       fc_lo fc = VInt lo → fc_hi fc = VInt hi → int_entry ui (fc_label fc) = Some e →
       d' !! fc_key fc = Some (VInt (Z.max lo (Z.min hi e)))) ∧
    (∀ fc, fc ∈ page_controls p →
       int_entry ui (fc_label fc) = None → float_entry ui (fc_label fc) = None →
       d' !! fc_key fc = d !! fc_key fc).
Proof.
  intros Hs Hd Hp. destruct (run_script_active m ui s d p Hs Hd Hp) as [_ Hafter].
  destruct (active_ok_inv s Hs) as (p' & d0 & Hp' & Hd' & _ & Hrec).
  assert (d0 = d) as -> by congruence.
  exists (apply_controls ui (page_controls p) d). rewrite Hafter. split; [done|].
  assert (∀ fc cur v, fc ∈ page_controls p → d !! fc_key fc = Some cur →
            control_value ui (fc_label fc) (fc_lo fc) (fc_hi fc) cur = inr v →
            apply_controls ui (page_controls p) d !! fc_key fc = Some v) as Hfield
    by (intros; eapply apply_controls_field; eauto using page_controls_keys).
  split; [|split].
  - intros fc cur Hin Hcur.
    destruct (page_controls_field d p fc Hrec Hin) as (cur' & Hcur' & Hw).
    assert (cur' = cur) as -> by congruence.
    destruct (control_value_defined ui (fc_label fc) _ _ _ Hw) as [v Hv]. eauto.
  - intros fc lo hi e Hin Hlo Hhi He.
    destruct (page_controls_field d p fc Hrec Hin) as (cur & Hcur & Hw).
    rewrite Hlo, Hhi in Hw. destruct cur as [c| |]; try discriminate.
    simpl in Hw. apply andb_true_iff in Hw as [Hlc%Z.leb_le Hch%Z.leb_le].
    apply (Hfield fc (VInt c)); [done..|].
    rewrite Hlo, Hhi. simpl. rewrite He. simpl. f_equal. f_equal.
    apply clamp_int_nearest. lia.
  - intros fc Hin Hi Hf.
    destruct (page_controls_field d p fc Hrec Hin) as (cur & Hcur & Hw).
    rewrite Hcur. apply (Hfield fc cur); [done..|].
    unfold control_value, int_control, float_control. rewrite Hi, Hf.
    by destruct (fc_lo fc), (fc_hi fc), cur.
Qed.

(** The theorem for the default record on page 2, with 250 entered as age. *)
Lemma entries_are_stored_witness :
  ∃ d', inputs (session_after (inr sample_model)
                  (enter_int "Age of the patient (years)" 250) (default_session 2))
        = Some d' ∧
        d' !! "age" = Some (VInt 100) ∧
        d' !! "glucose" = Some (VInt 100).
Proof.
  destruct (entries_are_stored sample_model (enter_int "Age of the patient (years)" 250)
              (default_session 2) default_inputs 2
              (default_session_ok 2 ltac:(lia)) eq_refl eq_refl)
    as (d' & Hd' & _ & Hint & Hnone).
  exists d'. split; [exact Hd'|]. split.
  - apply (Hint (Build_field_control KSlider "age" "Age of the patient (years)"
                   (VInt 5) (VInt 100)) 5 100 250); [repeat constructor | done..].
  - apply (Hnone (Build_field_control KNumberInput "glucose"
                    "Random blood glucose level (mg/dl)" (VInt 50) (VInt 600)));
      [repeat constructor | done..].
Defined.

(** X2. On a well-formed session with the model loaded, the page after a run
    is decided by the buttons the browser reports, looked at in the order of
    the page: on page 2 Home goes before Next, on page 3 Analyze before
    Previous before Home.  The run ends in [st.rerun()] exactly when the page
    changed, and returns normally otherwise. *)
Theorem buttons_decide_next_page m ui s p :
  active_ok s → page s = Some p →
  page (session_after (inr m) ui s) = Some (next_page ui p) ∧
  fst (run_script (inr m) ui s) = (if next_page ui p =? p then Ok tt else Sig Rerun).
Proof.
  intros Hs Hp. destruct (active_ok_inv s Hs) as (p' & d & Hp' & Hd & _).
  destruct (run_script_active m ui s d p Hs Hd Hp) as [Hres Hafter].
  by rewrite Hafter.
Qed.

(** The theorem on page 3 of the default record, with Previous pressed. *)
Lemma buttons_decide_next_page_witness :
  page (session_after (inr sample_model) (press "prev_to_basic") (default_session 3))
    = Some 2 ∧
  fst (run_script (inr sample_model) (press "prev_to_basic") (default_session 3))
    = Sig Rerun.
Proof.
  exact (buttons_decide_next_page sample_model (press "prev_to_basic") (default_session 3) 3
           (default_session_ok 3 ltac:(lia)) eq_refl).
Defined.

Lemma session_init_idem s : session_init (session_init s) = session_init s.
Proof. unfold session_init. by destruct (page s) eqn:Hp; simpl; rewrite ?Hp. Qed.

Lemma run_script_init m ui s : run_script (inr m) ui s = run_script (inr m) ui (session_init s).
Proof. by rewrite !run_script_loaded, session_init_idem. Qed.

(** X3. In every session the script can bring about, no run ends in an
    uncaught exception, whatever the browser reports and whether [predict]
    returns or raises an exception that [except Exception] catches: a run
    stops when the model does not load, and otherwise returns or ends in
    [st.rerun()].  (A [BaseException] that is no [Exception], raised inside
    the model, is not among the outcomes of [predict] here.) *)
Theorem reachable_run_never_raises artifact ui s :
  reachable artifact s →
  match artifact with
  | inl _ => fst (run_script artifact ui s) = Sig Stop
  | inr _ => fst (run_script artifact ui s) = Ok tt ∨
             fst (run_script artifact ui s) = Sig Rerun
  end.
Proof.
  intros Hs%reachable_ok. destruct artifact as [e|m]; [done|].
  rewrite run_script_init. apply session_init_ok in Hs.
  destruct (active_ok_inv _ Hs) as (p & d & Hp & Hd & _).
  destruct (run_script_active m ui _ d p Hs Hd Hp) as [-> _].
  destruct (next_page ui p =? p); auto.
Qed.

(** The theorem for a model whose [predict] raises, on the results page
    reached by the buttons. *)
Lemma reachable_run_never_raises_witness :
  fst (run_script (inr failing_model) quiet (runs (inr failing_model) round_trip new_session))
    = Ok tt ∨
  fst (run_script (inr failing_model) quiet (runs (inr failing_model) round_trip new_session))
    = Sig Rerun.
Proof.
  exact (reachable_run_never_raises (inr failing_model) quiet
           (runs (inr failing_model) round_trip new_session)
           (reachable_runs (inr failing_model) round_trip new_session
              (reach_new (inr failing_model)))).
Defined.

Lemma next_page_no_clicks ui p : no_clicks ui → next_page ui p = p.
Proof.
  intros Hnc. unfold next_page. rewrite !Hnc.
  destruct (Z.eqb_spec p 1); [done|]. destruct (Z.eqb_spec p 2); [done|].
  destruct (Z.eqb_spec p 3); [done|]. by destruct (Z.eqb_spec p 4).
Qed.

(** X4. A run in which the browser reports nothing (no entry, no pressed
    button) leaves a well-formed session exactly as it was, and returns
    normally when the model is loaded: drawing a page again changes
    nothing. *)
Theorem idle_run_changes_nothing artifact ui s :
  active_ok s → no_entries ui → no_clicks ui →
  session_after artifact ui s = s ∧
  ∀ m, artifact = inr m → fst (run_script artifact ui s) = Ok tt.
Proof.
  intros Hs Hne Hnc. destruct (active_ok_inv s Hs) as (p & d & Hp & Hd & _ & Hrec).
  destruct artifact as [e|m].
  - split; [|discriminate]. unfold session_after. by rewrite run_script_load_failed.
  - destruct (run_script_active m ui s d p Hs Hd Hp) as [Hres Hafter].
    rewrite Hres, Hafter, (next_page_no_clicks ui p Hnc), Z.eqb_refl.
    rewrite (apply_controls_no_entries ui _ d Hne
               (controls_ok_record d _ Hrec (page_controls_rows p))).
    split; [|done]. destruct s; simpl in *. by subst.
Qed.

(** The theorem for the default record on page 3. *)
Lemma idle_run_changes_nothing_witness :
  session_after (inr sample_model) quiet (default_session 3) = default_session 3.
Proof.
  exact (proj1 (idle_run_changes_nothing (inr sample_model) quiet (default_session 3)
                  (default_session_ok 3 ltac:(lia)) quiet_no_entries (fun _ => eq_refl))).
Defined.

(** ** What a page can change *)

Lemma agrees_off_store keys d s d0 k v :
  k ∈ keys → agrees_off keys d s → inputs s = Some d0 →
  agrees_off keys d (with_input k v d0 s).
Proof.
  intros Hk (d' & Hd' & Hagree) Hd0. assert (d' = d0) as -> by congruence.
  exists (<[k := v]> d0). split; [done|]. intros k' Hk'.
  rewrite lookup_insert_ne; [by apply Hagree|]. by intros ->.
Qed.

Ltac steady_field_off :=
  eapply steady_input_statement;
  [ auto
  | first [apply slider_is_control | apply number_input_is_control]
  | intros; eapply agrees_off_store; [|eassumption|eassumption];
    vm_compute; repeat constructor ].

Ltac steady_off :=
  repeat (steady_step ltac:(first [by apply steady_go_to_page | steady_field_off]));
  auto.

Lemma page_function_off m ui st d :
  steady (agrees_off (map fc_key (page_controls (page_of_step st))) d)
         (agrees_off (map fc_key (page_controls (page_of_step st))) d)
         (page_function m ui st).
Proof.
  destruct st; simpl;
    unfold welcome_page, basic_metrics_page, kidney_metrics_page, results_page;
    steady_off.
Qed.

(** X5. A run changes no field of the record but those of the controls of
    the page it shows: none on pages 1 and 4, the five of page 2, the six of
    page 3.  This holds for every session with a page and a record, well
    formed or not, whether the model loads or not, and whatever the browser
    reports (an entry for a control of another page is ignored). *)
Theorem page_touches_only_its_fields artifact ui s p d :
  page s = Some p → inputs s = Some d →
  ∃ d', inputs (session_after artifact ui s) = Some d' ∧
        ∀ k, k ∉ map fc_key (page_controls p) → d' !! k = d !! k.
Proof.
  intros Hp Hd. unfold session_after. destruct artifact as [e|m].
  - rewrite run_script_load_failed. by exists d.
  - rewrite run_script_loaded, (session_init_page s p Hp).
    destruct (step_of_page p) as [st|] eqn:Hst.
    + erewrite router_dispatch by eauto.
      apply step_of_page_inv in Hst as ->.
      apply (steady_session (agrees_off (map fc_key (page_controls (page_of_step st))) d));
        [apply page_function_off | by exists d].
    + erewrite router_no_page by eauto. by exists d.
Qed.

(** The theorem for page 3 of the default record, when the browser reports an
    entry for the age control of page 2. *)
Lemma page_touches_only_its_fields_witness :
  ∃ d', inputs (session_after (inr sample_model)
                  (enter_int "Age of the patient (years)" 250) (default_session 3))
        = Some d' ∧
        d' !! "age" = Some (VInt 40).
Proof.
  destruct (page_touches_only_its_fields (inr sample_model)
              (enter_int "Age of the patient (years)" 250) (default_session 3) 3
              default_inputs eq_refl eq_refl) as (d' & Hd' & Hoff).
  exists d'. split; [exact Hd'|].
  rewrite (Hoff "age"); [reflexivity | compute_done].
Defined.

(** ** What a run adds to the trace *)

Section Adds.
Context {P : event -> Prop}.
Hypothesis HP : ∀ el, P (Render el).

Lemma adds_same {A} (c : M A) : (∀ w, trace (snd (c w)) = trace w) → adds P c.
Proof. intros Hc w. exists []. by rewrite app_nil_r, Hc. Qed.

Lemma adds_ret {A} (a : A) : adds P (ret a).
Proof. by apply adds_same. Qed.

Lemma adds_raise {A} e : adds P (@raise A e).
Proof. by apply adds_same. Qed.

Lemma adds_lift {A} (r : exn + A) : adds P (lift r).
Proof. destruct r; [apply adds_raise | apply adds_ret]. Qed.

Lemma adds_get_page : adds P get_page.
Proof. apply adds_same. intros w. unfold get_page. by destruct (page (session w)). Qed.

Lemma adds_get_input k : adds P (get_input k).
Proof.
  apply adds_same. intros w. unfold get_input.
  destruct (inputs (session w)) as [d|]; [destruct (d !! k)|]; done.
Qed.

Lemma adds_set_input k v : adds P (set_input k v).
Proof. apply adds_same. intros w. unfold set_input. by destruct (inputs (session w)). Qed.

Lemma adds_go_to_page n : adds P (go_to_page n).
Proof. by apply adds_same. Qed.

Lemma adds_render el : adds P (emit (Render el)).
Proof. intros w. exists [Render el]. split; [done|]. by constructor. Qed.

Lemma adds_button ui lbl key : adds P (st_button ui lbl key).
Proof. intros w. exists [Render (Button lbl key)]. split; [done|]. by constructor. Qed.

Lemma adds_bind {A B} (c : M A) (k : A -> M B) :
  adds P c → (∀ a, adds P (k a)) → adds P (bind c k).
Proof.
  intros Hc Hk w. unfold bind. destruct (Hc w) as (t1 & Ht1 & HP1).
  destruct (c w) as [[a|sg] w1]; simpl in *; [|by exists t1].
  destruct (Hk a w1) as (t2 & Ht2 & HP2).
  exists (t1 ++ t2). rewrite Ht2, Ht1, app_assoc. split; [done|]. by apply Forall_app.
Qed.

Lemma adds_if {A} (b : bool) (c1 c2 : M A) : adds P c1 → adds P c2 → adds P (if b then c1 else c2).
Proof. by destruct b. Qed.

Lemma adds_input_statement ui widget k lbl lo hi :
  is_control ui widget → adds P (input_statement widget k lbl lo hi).
Proof.
  intros Hc. unfold input_statement.
  apply adds_bind; [apply adds_get_input|intros cur].
  apply adds_bind; [|intros v; apply adds_set_input].
  intros w. destruct (Hc lbl lo hi cur w) as [el ->].
  destruct (control_value ui lbl lo hi cur); simpl.
  - exists []. by rewrite app_nil_r.
  - exists [Render el]. split; [done|]. by constructor.
Qed.

End Adds.

Ltac adds_step :=
  lazymatch goal with
  | |- adds _ (go_to_page _) => apply adds_go_to_page
  | |- adds _ (input_statement _ _ _ _ _) =>
      eapply adds_input_statement;
      [done | first [apply slider_is_control | apply number_input_is_control]]
  | |- adds _ (bind _ _) => apply adds_bind; [|intros ?]
  | |- adds _ (if _ then _ else _) => apply adds_if
  | |- adds _ (ret _) => apply adds_ret
  | |- adds _ (st_markdown _) => apply adds_render; done
  | |- adds _ (st_button _ _ _) => apply adds_button; done
  end.

(** The three pages before the results draw elements and do nothing else
    towards the outside. *)
Lemma input_pages_render m ui st :
  st ≠ Results → adds is_render (page_function m ui st).
Proof.
  intros Hst.
  destruct st; [| | |done]; simpl;
    unfold welcome_page, basic_metrics_page, kidney_metrics_page; repeat adds_step.
Qed.

Lemma model_calls_length m s : (length (model_calls m s) <= 1)%nat.
Proof.
  unfold model_calls. pose proof (raw_prediction_exec m s) as H.
  destruct (fst (build_input_data (start s))) as [t|sg]; [|rewrite H; simpl; lia].
  destruct (reorder_columns m t) as [e|df]; rewrite H; simpl; lia.
Qed.

Lemma renders_no_calls t : Forall is_render t → predict_calls t = [] ∧ load_attempts t = [].
Proof.
  induction 1 as [|ev t Hev _ [IH1 IH2]]; [done|].
  destruct ev; try done; simpl; by rewrite IH1, IH2.
Qed.

Lemma load_attempts_app tr1 tr2 :
  load_attempts (tr1 ++ tr2) = load_attempts tr1 ++ load_attempts tr2.
Proof. apply omap_app. Qed.

Lemma load_attempts_calls dfs : load_attempts (map Predict dfs) = [].
Proof. by induction dfs. Qed.

Lemma load_attempts_map els : load_attempts (map Render els) = [].
Proof. by induction els. Qed.

(** A run with the model loaded: the trace begins with the load, and what
    follows holds no other load, and calls of the model only on page 4. *)
Lemma trace_of_loaded m ui s :
  ∃ t, trace_of (inr m) ui s = Load "best_gb_model_tuned.pkl" :: t ∧
       load_attempts t = [] ∧
       (length (predict_calls t) <= 1)%nat ∧
       (page (session_init s) ≠ Some 4 → predict_calls t = []).
Proof.
  unfold trace_of. rewrite run_script_loaded.
  set (w0 := {| session := session_init s; trace := [Load "best_gb_model_tuned.pkl"] |}).
  destruct (page (session_init s)) as [p|] eqn:Hp.
  - destruct (step_of_page p) as [st|] eqn:Hst.
    + rewrite (router_dispatch m ui w0 p st Hp Hst).
      assert (st = Results ∨ st ≠ Results) as [-> | Hne]
        by (destruct st; (by left) || (by right)).
      * simpl page_function. rewrite results_page_exec, raw_prediction_trace.
        exists ([Render (Header "Your Kidney Health Analysis Results")]
                ++ map Predict (model_calls m (session_init s))
                ++ map Render (outcome_block (raw_output m (session_init s)))
                ++ [Render (DivOpen "button-container");
                    Render (Button "🏠 Return to Home" "home_from_results")]
                ++ (if clicked ui "home_from_results" then [] else [Render DivClose])).
        split; [reflexivity|].
        rewrite !load_attempts_app, !predict_calls_app.
        rewrite load_attempts_calls, load_attempts_map, predict_calls_calls, predict_calls_map.
        split; [by destruct (clicked ui "home_from_results")|]. split.
        -- simpl. destruct (clicked ui "home_from_results"); simpl;
             rewrite app_nil_r; apply model_calls_length.
        -- apply step_of_page_inv in Hst. simpl in Hst. by subst p.
      * destruct (input_pages_render m ui st Hne w0) as (t & Ht & Hrender).
        rewrite Ht. exists t. split; [done|].
        destruct (renders_no_calls t Hrender) as [-> ->]. simpl. split; [done|]. split; [lia|done].
    + rewrite (router_no_page m ui w0 p Hp Hst). exists []. simpl. split; [done|].
      split; [done|]. split; [lia|done].
  - unfold router, bind, get_page. cbn [session w0]. rewrite Hp. exists []. simpl.
    split; [done|]. split; [done|]. split; [lia|done].
Qed.

(** X6. A run calls the model at most once, and only when it shows the
    results page: a run on a session whose page is not 4, or in which the
    model did not load, makes no call. *)
Theorem model_called_only_for_results artifact ui s :
  (length (predict_calls (trace_of artifact ui s)) <= 1)%nat ∧
  (page s ≠ Some 4 → predict_calls (trace_of artifact ui s) = []) ∧
  (∀ e, artifact = inl e → predict_calls (trace_of artifact ui s) = []).
Proof.
  destruct artifact as [e|m].
  - unfold trace_of. rewrite run_script_load_failed. simpl. split; [lia|]. by split.
  - destruct (trace_of_loaded m ui s) as (t & -> & _ & Hlen & Hpage).
    split; [exact Hlen|]. split; [|discriminate].
    intros Hp. apply Hpage. unfold session_init. by destruct (page s) eqn:Hps; simpl; rewrite ?Hps.
Qed.

(** The theorem for page 3 of the default record with Analyze pressed: the
    run that leaves for the results page does not call the model yet. *)
Lemma model_called_only_for_results_witness :
  predict_calls (trace_of (inr sample_model) (press "analyze") (default_session 3)) = [].
Proof.
  apply (proj1 (proj2 (model_called_only_for_results (inr sample_model) (press "analyze")
                         (default_session 3)))).
  discriminate.
Defined.

(** X7. Every run of the script reads the model file, once, before it does
    anything else: the trace of a run begins with the load of
    [best_gb_model_tuned.pkl] and holds no other load. *)
Theorem model_file_read_each_run artifact ui s :
  ∃ t, trace_of artifact ui s = Load "best_gb_model_tuned.pkl" :: t ∧
       load_attempts t = [].
Proof.
  destruct artifact as [e|m].
  - unfold trace_of. rewrite run_script_load_failed. by eexists.
  - destruct (trace_of_loaded m ui s) as (t & Ht & Hload & _). by exists t.
Qed.

(** ** The output of the model and the cells it is given *)

(** X8. On the results page only the first output of the model counts: when
    the model returns an empty array the page shows the error box with
    [IndexError] and no label, and when it returns [v] followed by anything
    the label is the one for [v]. *)
Theorem first_output_decides m ui s df :
  page s = Some 4 → model_calls m s = [df] →
  (predict m df = inr [] →
     ErrorBox "Prediction error: " IndexError ∈ rendered (trace_of (inr m) ui s) ∧
     labels_shown (trace_of (inr m) ui s) = []) ∧
  (∀ v rest, predict m df = inr (v :: rest) →
     labels_shown (trace_of (inr m) ui s)
     = [if py_eq_str v "No_Disease" then Negative else Positive]).
Proof.
  intros Hp Hcalls.
  destruct (model_calls_inv m s df) as (t & _ & _ & _ & Hout);
    [rewrite Hcalls; apply list_elem_of_here|].
  rewrite (trace_of_results m ui s Hp), Hout.
  rewrite !labels_shown_app, !rendered_app, labels_shown_calls, rendered_calls, rendered_map.
  split.
  - intros ->. simpl. split; [set_solver|]. by destruct (clicked ui "home_from_results").
  - intros v rest ->. simpl.
    by destruct (py_eq_str v "No_Disease"), (clicked ui "home_from_results").
Qed.

(** The theorem for a model that returns an empty array. *)
Lemma first_output_decides_witness :
  ErrorBox "Prediction error: " IndexError
    ∈ rendered (trace_of (inr silent_model) quiet (default_session 4)) ∧
  labels_shown (trace_of (inr silent_model) quiet (default_session 4)) = [].
Proof.
  exact (proj1 (first_output_decides silent_model quiet (default_session 4) default_table
                  eq_refl eq_refl) eq_refl).
Defined.

Lemma column_mapping_names : NoDup column_mapping.*2.
Proof. compute_done. Qed.

Lemma mapped_cell (d : gmap string value) (l : list (string * string)) (t : DataFrame) k c :
  NoDup l.*2 →
  Forall2 (fun (kc : string * string) (col : string * list value) =>
             col.1 = kc.2 ∧ ∃ v, d !! kc.1 = Some v ∧ col.2 = [v]) l t →
  (k, c) ∈ l → ∃ v, d !! k = Some v ∧ df_column t c = Some [v].
Proof.
  intros Hnd H. induction H as [|kc col l t [Hname (v & Hv & Hcells)] _ IH]; intros Hin.
  - by apply not_elem_of_nil in Hin.
  - simpl in Hnd. apply NoDup_cons in Hnd as [Hfresh Hnd].
    destruct col as [n cells]. simpl in *. subst n cells.
    apply elem_of_cons in Hin as [<- | Hin].
    + simpl. rewrite String.eqb_refl. eauto.
    + destruct (String.eqb_spec kc.2 c) as [Heq|_]; [|by apply IH].
      destruct Hfresh. rewrite Heq.
      change c with ((k, c).2). by apply list_elem_of_fmap_2.
Qed.

Lemma df_select_column df names df' c :
  df_select df names = inr df' → c ∈ names → df_column df' c = df_column df c.
Proof.
  revert df'. induction names as [|n ns IH]; intros df' H Hin; simpl in H.
  - by apply not_elem_of_nil in Hin.
  - destruct (df_column df n) as [cells|] eqn:Hn; [|discriminate].
    destruct (df_select df ns) as [e|rest]; [discriminate|].
    injection H as <-. simpl. destruct (String.eqb_spec n c) as [<-|Hne]; [done|].
    apply elem_of_cons in Hin as [->|Hin]; [done|]. by apply IH.
Qed.

(** A column of a table the model is called with holds the value of its
    field, whatever the order the model asked for. *)
Lemma model_call_cell m s d df k c :
  inputs s = Some d → df ∈ model_calls m s →
  (k, c) ∈ column_mapping → c ∈ columns df →
  ∃ v, d !! k = Some v ∧ df_column df c = Some [v].
Proof.
  intros Hd (t & Ht & Hr & _)%model_calls_inv Hkc Hc.
  destruct (build_input_data_inv _ _ _ Ht) as (_ & d' & Hd' & Hmap).
  simpl in Hd'. assert (d' = d) as -> by congruence.
  destruct (mapped_cell d column_mapping t k c column_mapping_names Hmap Hkc) as (v & Hv & Hcell).
  exists v. split; [done|].
  unfold reorder_columns in Hr. destruct (feature_names_in_ m) as [names|].
  - rewrite (df_select_column t names df c Hr); [done|].
    by rewrite <- (df_select_columns _ _ _ Hr).
  - by injection Hr as <-.
Qed.

(** X9. Whatever order of columns the model names, each column of the table
    it is called with holds, as its single cell, the value of the field that
    [column_mapping] puts under that column name: reordering never moves a
    value under another label. *)
Theorem values_stay_under_their_columns m s d df k c :
  inputs s = Some d → df ∈ model_calls m s →
  (k, c) ∈ column_mapping → c ∈ columns df →
  ∃ v, d !! k = Some v ∧ df_column df c = Some [v].
Proof. apply model_call_cell. Qed.

(** The theorem for the model that names an order of its own, on the default
    record: the creatinine column, first in that order, holds the
    creatinine. *)
Lemma values_stay_under_their_columns_witness :
  ∃ v, default_inputs !! "serum_creatinine" = Some v ∧
       df_column (hd [] (model_calls ordered_model (default_session 4)))
         "Serum creatinine (mg/dl)" = Some [v].
Proof.
  refine (values_stay_under_their_columns ordered_model (default_session 4) default_inputs
            _ "serum_creatinine" "Serum creatinine (mg/dl)" eq_refl _ _ _).
  - vm_compute. apply list_elem_of_here.
  - repeat constructor.
  - vm_compute. apply list_elem_of_here.
Defined.

(** X10. In every session the script can bring about, the model is only ever
    called on measurements within their declared ranges: each column of a
    table it is called with holds a value of its field's type between the
    bounds of the field's control. *)
Theorem model_sees_values_in_range artifact m s df k c lo hi :
  reachable artifact s → df ∈ model_calls m s →
  (k, c) ∈ column_mapping → (k, (lo, hi)) ∈ field_table → c ∈ columns df →
  ∃ v, df_column df c = Some [v] ∧ within lo hi v = true.
Proof.
  intros Hs Hdf Hkc Hrange Hc.
  pose proof Hdf as (t & Ht & _)%model_calls_inv.
  destruct (build_input_data_inv _ _ _ Ht) as (_ & d & Hd & _). simpl in Hd.
  destruct (reachable_ok _ _ Hs) as [-> | Hok]; [discriminate|].
  destruct (active_ok_inv s Hok) as (p & d' & _ & Hd' & _ & Hrec).
  assert (d' = d) as -> by congruence.
  destruct (model_call_cell m s d df k c Hd Hdf Hkc Hc) as (v & Hv & Hcell).
  destruct (record_ok_field d k lo hi Hrec Hrange) as (v' & Hv' & Hw).
  exists v. split; [done | congruence].
Qed.

(** The theorem after once round the wizard and on to the results page, for
    the age column. *)
Lemma model_sees_values_in_range_witness :
  ∃ v, df_column
         (hd [] (model_calls sample_model
                   (runs (inr sample_model) (take 3 round_trip) new_session)))
         "Age of the patient" = Some [v] ∧
       within (VInt 5) (VInt 100) v = true.
Proof.
  refine (model_sees_values_in_range (inr sample_model) sample_model
            (runs (inr sample_model) (take 3 round_trip) new_session)
            _ "age" "Age of the patient" (VInt 5) (VInt 100) _ _ _ _ _).
  - apply reachable_runs, reach_new.
  - vm_compute. apply list_elem_of_here.
  - repeat constructor.
  - repeat constructor.
  - vm_compute. apply list_elem_of_here.
Defined.

(** * The label and the ranges, on whole runs *)

(** ** The table of a record is the one the page builds *)

Lemma column_mapped_unique d t t' : column_mapped d t → column_mapped d t' → t = t'.
Proof.
  unfold column_mapped. generalize column_mapping. intros l H. revert t'.
  induction H as [|kc col l t [Hn (v & Hv & Hc)] _ IH]; intros t' H'.
  - by apply Forall2_nil_inv_l in H'.
  - apply Forall2_cons_inv_l in H' as (col' & t'' & [Hn' (v' & Hv' & Hc')] & H' & ->).
    rewrite (IH t'' H'). f_equal.
    destruct col as [n c], col' as [n' c']. simpl in *. congruence.
Qed.

Lemma build_input_data_mapped w d t :
  inputs (session w) = Some d → column_mapped d t → build_input_data w = (Ok t, w).
Proof.
  intros Hd Hmap.
  assert (∃ t', build_input_data w = (Ok t', w)) as [t' Ht'].
  { assert (Forall (fun kc : string * string => ∃ v, d !! kc.1 = Some v) column_mapping)
      as Hall.
    { apply Forall_forall. intros [k c] Hin.
      destruct (mapped_cell d column_mapping t k c column_mapping_names Hmap Hin)
        as (v & Hv & _).
      by exists v. }
    unfold column_mapping in Hall.
    repeat (apply Forall_cons in Hall as [[? ?] Hall]). simpl in *.
    unfold build_input_data, bind, get_input, ret. rewrite Hd.
    repeat match goal with
           | H : d !! ?k = Some _ |- context [d !! ?k] =>
               rewrite H; cbv beta iota; rewrite ?Hd
           end.
    by eexists. }
  destruct (build_input_data_inv _ _ _ Ht') as (_ & d' & Hd' & Hmap').
  assert (d' = d) as -> by congruence.
  by rewrite Ht', (column_mapped_unique d t t' Hmap Hmap').
Qed.

Lemma default_table_mapped : column_mapped default_inputs default_table.
Proof.
  unfold column_mapped, column_mapping, default_table.
  repeat constructor; simpl; by eexists.
Qed.

(** The run on the results page calls the model once, with the table of the
    record in the order the model asks for, and works on the first output of
    that call. *)
Lemma results_run_call m ui s d t df :
  page s = Some 4 → inputs s = Some d → column_mapped d t →
  reorder_columns m t = inr df →
  predict_calls (trace_of (inr m) ui s) = [df] ∧
  raw_output m s = first_output (predict m df).
Proof.
  intros Hp Hd Hmap Hr. rewrite (predict_calls_results m ui s Hp).
  unfold model_calls, raw_output. pose proof (raw_prediction_exec m s) as H.
  rewrite (build_input_data_mapped (start s) d t Hd Hmap) in H. simpl in H.
  rewrite Hr in H. by rewrite H.
Qed.

(** C1. On the results page the label shown is decided by what the model
    returns for the table of the record: the run calls [predict] once, with
    that table in the order the model asks for, and for the first output [v]
    of the call the output [No_Disease] (the string) gives Negative, the
    title No Kidney Disease Detected, and every other output value gives
    Positive, the title Kidney Disease Detected. *)
Theorem label_follows_output m ui s d t df v rest :
  page s = Some 4 → inputs s = Some d → column_mapped d t →
  reorder_columns m t = inr df → predict m df = inr (v :: rest) →
  predict_calls (trace_of (inr m) ui s) = [df] ∧
  (v = VStr "No_Disease" →
     labels_shown (trace_of (inr m) ui s) = [Negative] ∧
     ResultTitle "💚" "No Kidney Disease Detected" ∈ rendered (trace_of (inr m) ui s)) ∧
  (v ≠ VStr "No_Disease" →
     labels_shown (trace_of (inr m) ui s) = [Positive] ∧
     ResultTitle "⚠️" "Kidney Disease Detected" ∈ rendered (trace_of (inr m) ui s)).
Proof.
  intros Hp Hd Hmap Hr Hv.
  destruct (results_run_call m ui s d t df Hp Hd Hmap Hr) as [Hcall Hout].
  split; [exact Hcall|]. rewrite Hv in Hout. simpl in Hout.
  rewrite (trace_of_results m ui s Hp), Hout.
  rewrite !labels_shown_app, !rendered_app, labels_shown_calls, rendered_calls, rendered_map.
  unfold outcome_block. split; intros Hcase.
  - apply py_eq_str_spec in Hcase as ->.
    split; [by destruct (clicked ui "home_from_results")|]. simpl. set_solver.
  - destruct (py_eq_str v "No_Disease") eqn:Heq; [by apply py_eq_str_spec in Heq|].
    split; [by destruct (clicked ui "home_from_results")|]. simpl. set_solver.
Qed.

(** The theorem for the default record, once with a model that answers
    [No_Disease] and once with one that answers [CKD]. *)
Lemma label_follows_output_witness :
  (predict_calls (trace_of (inr sample_model) quiet (default_session 4)) = [default_table] ∧
   labels_shown (trace_of (inr sample_model) quiet (default_session 4)) = [Negative]) ∧
  (length (predict_calls (trace_of (inr ordered_model) quiet (default_session 4))) = 1%nat ∧
   labels_shown (trace_of (inr ordered_model) quiet (default_session 4)) = [Positive]).
Proof.
  split.
  - destruct (label_follows_output sample_model quiet (default_session 4)
                default_inputs default_table default_table (VStr "No_Disease") []
                eq_refl eq_refl default_table_mapped eq_refl eq_refl)
      as (Hcall & Hneg & _).
    split; [exact Hcall | exact (proj1 (Hneg eq_refl))].
  - destruct (label_follows_output ordered_model quiet (default_session 4)
                default_inputs default_table _ (VStr "CKD") []
                eq_refl eq_refl default_table_mapped eq_refl eq_refl)
      as (Hcall & _ & Hpos).
    split; [by rewrite Hcall | apply Hpos; discriminate].
Defined.

(** ** The record after a run *)

Lemma session_after_loaded_ok m ui s :
  session_ok s → active_ok (session_after (inr m) ui s).
Proof.
  intros Hs. unfold session_after. rewrite run_script_loaded.
  pose proof (router_ok m ui
    {| session := session_init s; trace := [Load "best_gb_model_tuned.pkl"] |}
    (session_init_ok s Hs)) as H.
  by destruct (router m ui _) as [[[]|sg] w1].
Qed.

Lemma reachable_active artifact s d :
  reachable artifact s → inputs s = Some d → active_ok s.
Proof. intros [-> | Hok]%reachable_ok Hd; [discriminate | done]. Qed.

(** C2. After every run of the script in which the model is loaded, so after
    any interaction with a control, the record exists and each of its eleven
    fields is defined and holds a value of its type within its declared
    range; before the first such run a session has no record at all.  What a
    run stores for an entry in a control of the page it shows is the entry
    clamped by the control: an integer entry is moved to the nearest bound, a
    float entry that is not at least the minimum becomes the minimum and one
    that is not at most the maximum becomes the maximum, and an entry within
    the bounds is kept. *)
Theorem fields_stay_in_range :
  (∀ m ui s, reachable (inr m) s →
     ∃ d, inputs (session_after (inr m) ui s) = Some d ∧ in_declared_ranges d) ∧
  (∀ m ui s d p fc,
     reachable (inr m) s → inputs s = Some d → page s = Some p → fc ∈ page_controls p →
     ∃ d', inputs (session_after (inr m) ui s) = Some d' ∧
           in_declared_ranges d' ∧
           (∀ lo hi e, fc_lo fc = VInt lo → fc_hi fc = VInt hi →
              int_entry ui (fc_label fc) = Some e →
              d' !! fc_key fc = Some (VInt (Z.max lo (Z.min hi e)))) ∧
           (∀ lo hi e, fc_lo fc = VFloat lo → fc_hi fc = VFloat hi →
              float_entry ui (fc_label fc) = Some e →
              d' !! fc_key fc
              = Some (VFloat (if PrimFloat.leb lo e
                              then (if PrimFloat.leb e hi then e else hi) else lo)))) ∧
  (∀ artifact s, reachable artifact s →
     s = new_session ∨ ∃ d, inputs s = Some d ∧ in_declared_ranges d) ∧
  (∀ lo hi cur e, lo <= hi →
     int_control lo hi cur (Some e) = Z.max lo (Z.min hi e)) ∧
  (∀ lo hi cur e,
     float_control lo hi cur (Some e) =
       if PrimFloat.leb lo e then (if PrimFloat.leb e hi then e else hi) else lo).
Proof.
  assert (∀ m ui s, reachable (inr m) s →
            ∃ d, inputs (session_after (inr m) ui s) = Some d ∧ in_declared_ranges d)
    as Hafter.
  { intros m ui s Hs%reachable_ok.
    destruct (active_ok_inv _ (session_after_loaded_ok m ui s Hs))
      as (p & d & _ & Hd & _ & Hrec).
    exists d. split; [done | by apply record_ok_declared]. }
  split; [exact Hafter|]. split; [|split; [|split]].
  - intros m ui s d p fc Hs Hd Hp Hin.
    destruct (Hafter m ui s Hs) as (d' & Hd' & Hranges).
    exists d'. split; [done|]. split; [done|].
    pose proof (reachable_active _ s d Hs Hd) as Hact.
    destruct (active_ok_inv s Hact) as (p' & d0 & _ & Hd0 & _ & Hrec).
    assert (d0 = d) as -> by congruence.
    destruct (run_script_active m ui s d p Hact Hd Hp) as [_ Hrun].
    rewrite Hrun in Hd'. simpl in Hd'. injection Hd' as <-.
    destruct (page_controls_field d p fc Hrec Hin) as (cur & Hcur & Hw).
    split.
    + intros lo hi e Hlo Hhi He. rewrite Hlo, Hhi in Hw.
      destruct cur as [c| |]; try discriminate.
      simpl in Hw. apply andb_true_iff in Hw as [Hlc%Z.leb_le Hch%Z.leb_le].
      apply (apply_controls_field ui _ d fc (VInt c)); [apply page_controls_keys|done..|].
      rewrite Hlo, Hhi. simpl. rewrite He. simpl. f_equal. f_equal.
      apply clamp_int_nearest. lia.
    + intros lo hi e Hlo Hhi He. rewrite Hlo, Hhi in Hw.
      destruct cur as [|c|]; try discriminate.
      apply (apply_controls_field ui _ d fc (VFloat c)); [apply page_controls_keys|done..|].
      rewrite Hlo, Hhi. simpl. by rewrite He.
  - intros artifact s Hs. destruct (reachable_ok _ _ Hs) as [-> | Hok]; [by left|right].
    destruct (active_ok_inv s Hok) as (p & d & _ & Hd & _ & Hrec).
    exists d. split; [done | by apply record_ok_declared].
  - intros lo hi cur e Hb. by apply clamp_int_nearest.
  - reflexivity.
Qed.

(** The theorem at the first run of a new session, and at the third, in which
    an age of 250 is typed into the first control of page 2. *)
Lemma fields_stay_in_range_witness :
  (∃ d, inputs (session_after (inr sample_model) quiet new_session) = Some d ∧
        in_declared_ranges d) ∧
  (∃ d', inputs (session_after (inr sample_model)
                   (enter_int "Age of the patient (years)" 250)
                   (runs (inr sample_model) [quiet; press "start_assessment"] new_session))
         = Some d' ∧
         in_declared_ranges d' ∧
         d' !! "age" = Some (VInt 100)).
Proof.
  split.
  - exact (proj1 fields_stay_in_range sample_model quiet new_session
             (reach_new (inr sample_model))).
  - destruct (proj1 (proj2 fields_stay_in_range) sample_model
                (enter_int "Age of the patient (years)" 250)
                (runs (inr sample_model) [quiet; press "start_assessment"] new_session)
                default_inputs 2
                (Build_field_control KSlider "age" "Age of the patient (years)"
                   (VInt 5) (VInt 100))
                (reachable_runs (inr sample_model) [quiet; press "start_assessment"]
                   new_session (reach_new (inr sample_model)))
                eq_refl eq_refl (list_elem_of_here _ _))
      as (d' & Hd' & Hranges & Hint & _).
    exists d'. split; [exact Hd'|]. split; [exact Hranges|].
    exact (Hint 5 100 250 eq_refl eq_refl eq_refl).
Defined.
